(** * S4TK workspace: the configuration life cycle

    A shallow embedding of [src/workspace/s4tk-workspace.ts] (the class
    [_S4TKWorkspace] and its helpers) and of
    [src/contributions/commands/isURI.ts].

    The TypeScript methods are [async]; each of them is embedded as one
    uninterrupted run over an explicit [World] (the workspace singleton,
    the host's context keys, the workspace file system and the log of
    what was shown to the user).  Interleavings of two runs at an [await]
    are outside this model. *)

From Stdlib Require Import String Ascii List Bool Arith Lia.
From stdpp Require Import base option gmap strings list.

(** ** JavaScript values the code inspects *)

(** What a [catch] clause can receive.  [loadConfig] tells three cases
    apart: [err instanceof SyntaxError] (it shows [err.message]),
    [err instanceof ValidationError] (it shows [err.stack]), and anything
    else (it shows the value itself, i.e. its string rendering). *)
Inductive Exn : Type :=
  | SyntaxError (message : string)
  | ValidationError (stack : string)
  | OtherError (rendering : string).

(** The outcome of running a piece of code: it returns or it throws. *)
Inductive Completion (A : Type) : Type :=
  | Returned (a : A)
  | Thrown (e : Exn).
Arguments Returned {A} a.
Arguments Thrown {A} e.

(** Sequencing and [try]/[catch] on outcomes, for code without state. *)
Definition Completion_bind {A B} (c : Completion A) (k : A -> Completion B)
  : Completion B :=
  match c with
  | Returned a => k a
  | Thrown e => Thrown e
  end.
Definition Completion_catch {A} (body : Completion A)
    (handler : Exn -> Completion A) : Completion A :=
  match body with
  | Returned a => Returned a
  | Thrown e => handler e
  end.

(** The two properties of a [vscode.Uri] that the code reads. *)
Record Uri : Type := mkUri { path : string; fsPath : string }.

(** [String.prototype.endsWith]. *)
Definition endsWith (s suffix : string) : bool :=
  (String.length suffix <=? String.length s)
  && String.eqb
       (substring (String.length s - String.length suffix)
                  (String.length suffix) s)
       suffix.

(** [Buffer.from(text)] and [buffer.toString()]: text is kept as its
    UTF-8 bytes. *)
Definition Buffer_from (text : string) : list Byte.byte :=
  list_byte_of_string text.
Definition toString (content : list Byte.byte) : string :=
  string_of_list_byte content.

(** ** Notifications *)

Inductive Severity : Type := Information | Warning | Error.

(** One call of [showInformationMessage], [showWarningMessage] or
    [showErrorMessage]: the text and the buttons offered. *)
Record Notification : Type := mkNotification {
  severity : Severity;
  message : string;
  actions : list string
}.

Definition _GET_HELP_BUTTON : string := "Get Help".
Definition _REPORT_PROBLEM_BUTTON : string := "Report Problem".
Definition _RELOAD_CONFIG_BUTTON : string := "Reload Config".
Definition _CREATE_PROJECT_BUTTON : string := "Create S4TK Project".

(** Modelled from the spec: [CONFIG_FILENAME] is declared in
    [@models/s4tk-config], which is not under src/.  The spec calls it a
    fixed constant; the value is the one the doc comment and the warning
    text of [loadConfig] spell out. *)
Definition CONFIG_FILENAME : string := "s4tk.config.json".

(** The context key written by the [config] setter. *)
Definition ACTIVE_CONTEXT_KEY : string := "s4tk.workspace.active".

(** ** [isURI] *)

Section IsURI.

(** The argument is typed [any]. *)
Variable JSAny : Type.
(** The objects [new URL(...)] builds, and the constructor itself: it
    returns one or throws. *)
Variable URL : Type.
Variable new_URL : JSAny -> Completion URL.

(** [try { new URL(something); return true; } catch (error) { return false; }] *)
Definition isURI (something : JSAny) : Completion bool :=
  Completion_catch
    (Completion_bind (new_URL something) (fun _ => Returned true))
    (fun error => Returned false).

End IsURI.

(** ** The configuration object *)

Section Workspace.

(** Values of the configuration's fields that this code never looks
    into (the type [S4TKConfig] is declared in [@models/s4tk-config]). *)
Context {Json : Type}.

(** The [stringTables] sub-object: the [defaultPath] property and
    whatever other properties the object carries. *)
Record StringTables : Type := mkStringTables {
  defaultPath : option string;
  stringTablesRest : gmap string Json
}.

(** [S4TKConfig]: the optional [stringTables] property and the other
    properties of the object. *)
Record S4TKConfig : Type := mkS4TKConfig {
  stringTables : option StringTables;
  configRest : gmap string Json
}.

(** What the workspace imports and does not define: the host API and
    the module [@models/s4tk-config] (not under src/). *)
Class Collaborators : Type := {
  (** [vscode.Uri.joinPath] for a single segment. *)
  joinPath : Uri -> string -> Uri;
  (** Text of the error [vscode.workspace.fs.readFile] rejects with when
      there is no such file (the host's wording). *)
  fileSystemErrorText : Uri -> string;
  parseConfig : string -> Completion S4TKConfig;
  stringifyConfig : S4TKConfig -> string;
  DEFAULT_CONFIG_CONTENT : list Byte.byte;
  (** The result of [StringTableJson.generateRandomContent()]. *)
  generateRandomContent : list Byte.byte
}.

Context {collaborators : Collaborators}.

(** ** The world the workspace runs in *)

Record World : Type := mkWorld {
  _config : option S4TKConfig;          (* [this._config] *)
  contextKeys : gmap string bool;       (* keys set through [setContext] *)
  workspaceFolders : list Uri;          (* [vscode.workspace.workspaceFolders] *)
  files : gmap string (list Byte.byte); (* [vscode.workspace.fs], by uri path *)
  directories : gset string;
  notifications : list Notification;    (* oldest first *)
  shownDocuments : list Uri;            (* [showTextDocument] *)
  openedLinks : list string             (* [vscode.env.openExternal] *)
}.

(** [Boolean(config)] for [S4TKConfig | undefined]: an object is truthy. *)
Definition Boolean (config : option S4TKConfig) : bool :=
  match config with Some _ => true | None => false end.

(** [get active()]. *)
Definition active (w : World) : bool := Boolean (_config w).

(** What the host sees: a context key that was never set counts as false. *)
Definition contextActive (w : World) : bool :=
  default false (contextKeys w !! ACTIVE_CONTEXT_KEY).

(** ** A state-and-exception monad for the method bodies *)

Definition M (A : Type) : Type := World -> Completion A * World.

Definition ret {A} (a : A) : M A := fun w => (Returned a, w).
Definition throw {A} (e : Exn) : M A := fun w => (Thrown e, w).
Definition bind {A B} (m : M A) (k : A -> M B) : M B :=
  fun w =>
    match m w with
    | (Returned a, w') => k a w'
    | (Thrown e, w') => (Thrown e, w')
    end.
(** [try { body } catch (err) { handler }]. *)
Definition try_catch {A} (body : M A) (handler : Exn -> M A) : M A :=
  fun w =>
    match body w with
    | (Returned a, w') => (Returned a, w')
    | (Thrown e, w') => handler e w'
    end.

#[global] Instance M_ret : MRet M := @ret.
#[global] Instance M_bind : MBind M := fun A B k m => bind m k.

(** ** Host primitives *)

Definition executeCommand_setContext (key : string) (value : bool) : M unit :=
  fun w =>
    (Returned tt,
     mkWorld (_config w) (<[key := value]> (contextKeys w))
             (workspaceFolders w) (files w) (directories w)
             (notifications w) (shownDocuments w) (openedLinks w)).

Definition assign_config (config : option S4TKConfig) : M unit :=
  fun w =>
    (Returned tt,
     mkWorld config (contextKeys w) (workspaceFolders w) (files w)
             (directories w) (notifications w) (shownDocuments w)
             (openedLinks w)).

Definition notify (n : Notification) : M unit :=
  fun w =>
    (Returned tt,
     mkWorld (_config w) (contextKeys w) (workspaceFolders w) (files w)
             (directories w) (notifications w ++ [n]) (shownDocuments w)
             (openedLinks w)).

Definition showInformationMessage (text : string) : M unit :=
  notify (mkNotification Information text []).
Definition showWarningMessage (text : string) (buttons : list string) : M unit :=
  notify (mkNotification Warning text buttons).
Definition showErrorMessage (text : string) (buttons : list string) : M unit :=
  notify (mkNotification Error text buttons).

Definition showTextDocument (uri : Uri) : M unit :=
  fun w =>
    (Returned tt,
     mkWorld (_config w) (contextKeys w) (workspaceFolders w) (files w)
             (directories w) (notifications w) (shownDocuments w ++ [uri])
             (openedLinks w)).

Definition openExternal (link : string) : M unit :=
  fun w =>
    (Returned tt,
     mkWorld (_config w) (contextKeys w) (workspaceFolders w) (files w)
             (directories w) (notifications w) (shownDocuments w)
             (openedLinks w ++ [link])).

(** [vscode.workspace.fs.writeFile]: creates or overwrites. *)
Definition writeFile (uri : Uri) (content : list Byte.byte) : M unit :=
  fun w =>
    (Returned tt,
     mkWorld (_config w) (contextKeys w) (workspaceFolders w)
             (<[path uri := content]> (files w)) (directories w)
             (notifications w) (shownDocuments w) (openedLinks w)).

Definition createDirectory (uri : Uri) : M unit :=
  fun w =>
    (Returned tt,
     mkWorld (_config w) (contextKeys w) (workspaceFolders w) (files w)
             ({[path uri]} ∪ directories w) (notifications w)
             (shownDocuments w) (openedLinks w)).

Definition readFile (uri : Uri) : M (list Byte.byte) :=
  fun w =>
    match files w !! path uri with
    | Some content => (Returned content, w)
    | None => (Thrown (OtherError (fileSystemErrorText uri)), w)
    end.

(** Modelled from the spec: [fileExists] is a helper of [@helpers/utils],
    which is not under src/.  The spec's FileStore gives it as
    [exists(path) -> bool]. *)
Definition fileExists (uri : Uri) : M bool :=
  fun w => (Returned (bool_decide (is_Some (files w !! path uri))), w).

(** [joinPath] applied to [rootUri as vscode.Uri]: the cast does not
    check, and the host throws on [undefined]. *)
Definition joinPath_cast (base : option Uri) (segment : string) : M Uri :=
  match base with
  | Some b => ret (joinPath b segment)
  | None => throw (OtherError "TypeError")
  end.

(** [vscode.workspace.workspaceFolders?.[0]?.uri]. *)
Definition rootUri (w : World) : option Uri := head (workspaceFolders w).
Definition get_rootUri : M (option Uri) := fun w => (Returned (rootUri w), w).
Definition get_config : M (option S4TKConfig) :=
  fun w => (Returned (_config w), w).

(** ** [_S4TKWorkspace] *)

(** [private set config(config)]. *)
Definition set_config (config : option S4TKConfig) : M unit :=
  assign_config config ;;
  executeCommand_setContext ACTIVE_CONTEXT_KEY (Boolean config).

(** The result of [_findConfig]. *)
Record ConfigUriInfo : Type := mkConfigUriInfo {
  uri : option Uri;
  exists_ : bool
}.

Definition _findConfig : M ConfigUriInfo :=
  rootUri ← get_rootUri;
  match rootUri with
  | None => mret (mkConfigUriInfo None false)
  | Some rootUri =>
      let uri := joinPath rootUri CONFIG_FILENAME in
      exists_ ← fileExists uri;
      mret (mkConfigUriInfo (Some uri) exists_)
  end.

(** The [options] argument of [loadConfig]. *)
Record LoadOptions : Type := mkLoadOptions {
  showNoConfigError : option bool
}.

(** [options?.showNoConfigError] as a condition. *)
Definition wants_NoConfigError (options : option LoadOptions) : bool :=
  match options with
  | Some o => default false (showNoConfigError o)
  | None => false
  end.

(** The text picked in the [catch] clause of [loadConfig]. *)
Definition errMsg (err : Exn) : string :=
  match err with
  | SyntaxError message => message
  | ValidationError stack => stack
  | OtherError rendering => rendering
  end.

Definition couldNotValidate (detail : string) : string :=
  "Could not validate S4TK config. You will not be able to build your project until all errors are resolved and the config has been reloaded. ("
  +:+ detail +:+ ")".

Definition liftCompletion {A} (c : Completion A) : M A :=
  fun w => (c, w).

(** The postfix [!] of [configUriInfo.uri!] checks nothing; the host
    call that receives [undefined] is the one that throws. *)
Definition non_null (u : option Uri) : M Uri :=
  match u with
  | Some u => ret u
  | None => throw (OtherError "TypeError")
  end.

Definition loadConfig (options : option LoadOptions)
  : M (option S4TKConfig) :=
  set_config None ;;
  configUriInfo ← _findConfig;
  if negb (bool_decide (is_Some (uri configUriInfo)) && exists_ configUriInfo)
  then
    (if wants_NoConfigError options then
       showWarningMessage
         "No 's4tk.config.json' file was found at the root of this project."
         [_CREATE_PROJECT_BUTTON]
     else mret tt) ;;
    mret None
  else
    try_catch
      (configUri ← non_null (uri configUriInfo);
       content ← readFile configUri;
       config ← liftCompletion (parseConfig (toString content));
       showInformationMessage "Successfully loaded S4TK config." ;;
       set_config (Some config) ;;
       mret (Some config))
      (fun err =>
         showErrorMessage (couldNotValidate (errMsg err))
           [_GET_HELP_BUTTON; _RELOAD_CONFIG_BUTTON] ;;
         mret None).

(** The two assignments of [setDefaultStbl]: a fresh [stringTables]
    object when there is none, otherwise only its [defaultPath]. *)
Definition withDefaultPath (config : S4TKConfig) (p : string) : S4TKConfig :=
  match stringTables config with
  | None =>
      mkS4TKConfig (Some (mkStringTables (Some p) ∅)) (configRest config)
  | Some st =>
      mkS4TKConfig (Some (mkStringTables (Some p) (stringTablesRest st)))
                   (configRest config)
  end.

(** [setDefaultStbl] writes into the object that [this._config] holds:
    the slot is updated without going through the setter. *)
Definition setDefaultStbl (stblUri : Uri) : M unit :=
  config ← get_config;
  match config with
  | None =>
      showErrorMessage
        "Cannot set this STBL as default because no S4TK config is currently loaded."
        [_RELOAD_CONFIG_BUTTON]
  | Some config =>
      assign_config (Some (withDefaultPath config (fsPath stblUri))) ;;
      configUriInfo ← _findConfig;
      match uri configUriInfo with
      | Some configUri =>
          config ← get_config;
          match config with
          | Some config =>
              writeFile configUri (Buffer_from (stringifyConfig config))
          | None => throw (OtherError "TypeError")
          end
      | None =>
          showErrorMessage
            "Failed to locate config file while updating default STBL. Please report this problem."
            [_REPORT_PROBLEM_BUTTON]
      end
  end.

(** [createDefaultProject].  The source starts the write of the config
    file, registers its continuation ([showTextDocument], [loadConfig])
    and goes on with the directories and the string table; here the
    continuation runs after the rest of the body. *)
Definition createDefaultProject : M unit :=
  configUriInfo ← _findConfig;
  if exists_ configUriInfo then
    showWarningMessage "S4TK config file already exists." []
  else
    match uri configUriInfo with
    | None =>
        showErrorMessage
          "Failed to create config file. Please report this problem."
          [_REPORT_PROBLEM_BUTTON]
    | Some configUri =>
        writeFile configUri DEFAULT_CONFIG_CONTENT ;;
        rootUri ← get_rootUri;
        out ← joinPath_cast rootUri "out";
        createDirectory out ;;
        src ← joinPath_cast rootUri "src";
        createDirectory src ;;
        strings ← joinPath_cast rootUri "strings";
        createDirectory strings ;;
        (* [joinPath(rootUri, "strings", "default.stbl.json")] *)
        stblUri ← joinPath_cast (Some strings) "default.stbl.json";
        stblExists ← fileExists stblUri;
        (if negb stblExists then writeFile stblUri generateRandomContent
         else mret tt) ;;
        showTextDocument configUri ;;
        loadConfig None ;;
        mret tt
    end.

Definition _launchContactLink : M unit :=
  openExternal "https://frankkmods.com/#/contact".

(** [_handlePopupClick]: the [switch] over the button that was clicked
    ([None] when the message was dismissed). *)
Definition _handlePopupClick (button : option string) : M unit :=
  match button with
  | None => mret tt
  | Some b =>
      if String.eqb b _GET_HELP_BUTTON || String.eqb b _REPORT_PROBLEM_BUTTON
      then _launchContactLink
      else if String.eqb b _RELOAD_CONFIG_BUTTON
      then loadConfig (Some (mkLoadOptions (Some true))) ;; mret tt
      else if String.eqb b _CREATE_PROJECT_BUTTON
      then createDefaultProject
      else mret tt
  end.

(** The listener given to [onDidSaveTextDocument]. *)
Definition onDidSaveTextDocument (fileName : string) : M unit :=
  if endsWith fileName CONFIG_FILENAME then loadConfig None ;; mret tt
  else mret tt.

(** The listener given to [onDidDeleteFiles]. *)
Definition onDidDeleteFiles (deleted : list Uri) : M unit :=
  if existsb (fun uri => endsWith (path uri) CONFIG_FILENAME) deleted then
    set_config None ;;
    showWarningMessage "S4TK config unloaded." []
  else mret tt.

(** [activate]: the two listeners above are subscribed (their calls are
    the events [Saved] and [Deleted] below), then the config is loaded. *)
Definition activate : M unit := loadConfig None ;; mret tt.

(** ** The life of the singleton *)

(** What can happen to the workspace object: a call of one of its
    methods, a host event, a click on a button of a message, or a change
    that the user or the host makes to the folders and the files. *)
Inductive Event : Type :=
  | Activate
  | Saved (fileName : string)
  | Deleted (deleted : list Uri)
  | LoadConfig (options : option LoadOptions)
  | CreateDefaultProject
  | SetDefaultStbl (stblUri : Uri)
  | PopupClick (button : option string)
  | FoldersChanged (folders : list Uri)
  | FilesChanged (contents : gmap string (list Byte.byte)).

Definition void {A} (m : M A) : M unit := m ;; mret tt.

Definition setFolders (folders : list Uri) : M unit :=
  fun w =>
    (Returned tt,
     mkWorld (_config w) (contextKeys w) folders (files w) (directories w)
             (notifications w) (shownDocuments w) (openedLinks w)).

Definition setFiles (contents : gmap string (list Byte.byte)) : M unit :=
  fun w =>
    (Returned tt,
     mkWorld (_config w) (contextKeys w) (workspaceFolders w) contents
             (directories w) (notifications w) (shownDocuments w)
             (openedLinks w)).

Definition handle (ev : Event) : M unit :=
  match ev with
  | Activate => activate
  | Saved fileName => onDidSaveTextDocument fileName
  | Deleted deleted => onDidDeleteFiles deleted
  | LoadConfig options => void (loadConfig options)
  | CreateDefaultProject => createDefaultProject
  | SetDefaultStbl stblUri => setDefaultStbl stblUri
  | PopupClick button => _handlePopupClick button
  | FoldersChanged folders => setFolders folders
  | FilesChanged contents => setFiles contents
  end.

(** When the module is loaded the slot is [undefined] and the context
    key has never been set. *)
Definition initial (w : World) : Prop :=
  _config w = None /\ contextKeys w !! ACTIVE_CONTEXT_KEY = None.

Inductive reachable : World -> Prop :=
  | reachable_initial w : initial w -> reachable w
  | reachable_step w ev :
      reachable w -> reachable (snd (handle ev w)).

(** Modelled from the spec: [parseConfig] and [stringifyConfig] belong to
    [@models/s4tk-config], which is not under src/.  The spec has the
    file that [setDefaultStbl] writes "parse back to the same value":
    parsing the text written for [config] gives [config] again. *)
Definition parses_back (config : S4TKConfig) : Prop :=
  parseConfig (stringifyConfig config) = Returned config.

(** [config.stringTables?.defaultPath]. *)
Definition configDefaultPath (config : S4TKConfig) : option string :=
  match stringTables config with
  | Some st => defaultPath st
  | None => None
  end.

(** The state with one more notification. *)
Definition notified (n : Notification) (w : World) : World :=
  mkWorld (_config w) (contextKeys w) (workspaceFolders w) (files w)
          (directories w) (notifications w ++ [n]) (shownDocuments w)
          (openedLinks w).

(** The messages of [loadConfig]. *)
Definition noConfigFound : Notification :=
  mkNotification Warning
    "No 's4tk.config.json' file was found at the root of this project."
    [_CREATE_PROJECT_BUTTON].
Definition successfullyLoaded : Notification :=
  mkNotification Information "Successfully loaded S4TK config." [].
Definition couldNotLoad (err : Exn) : Notification :=
  mkNotification Error (couldNotValidate (errMsg err))
    [_GET_HELP_BUTTON; _RELOAD_CONFIG_BUTTON].

(** The warning of [createDefaultProject]. *)
Definition alreadyExists : Notification :=
  mkNotification Warning "S4TK config file already exists." [].

(** The context key the host sees agrees with [active]. *)
Definition in_step (w : World) : Prop := contextActive w = active w.

(** What [createDefaultProject] has put in place when it reaches its
    [loadConfig]: the default config file, the three folders, the string
    table unless there was one, and the config file opened in the editor. *)
Definition scaffolded (root : Uri) (w : World) : World :=
  let configUri := joinPath root CONFIG_FILENAME in
  let stblUri := joinPath (joinPath root "strings") "default.stbl.json" in
  let written := <[path configUri := DEFAULT_CONFIG_CONTENT]> (files w) in
  mkWorld (_config w) (contextKeys w) (workspaceFolders w)
          (if bool_decide (is_Some (written !! path stblUri)) then written
           else <[path stblUri := generateRandomContent]> written)
          ({[path (joinPath root "strings")]}
           ∪ ({[path (joinPath root "src")]}
              ∪ ({[path (joinPath root "out")]} ∪ directories w)))
          (notifications w) (shownDocuments w ++ [configUri])
          (openedLinks w).

(** [haystack.includes(needle)], as a proposition. *)
Definition includes (haystack needle : string) : Prop :=
  exists before after, haystack = before +:+ needle +:+ after.

(** The backing file: [CONFIG_FILENAME] at the first workspace folder. *)
Definition backingUri (root : Uri) : Uri := joinPath root CONFIG_FILENAME.

(** The state [loadConfig] starts from after its first statement. *)
Definition cleared (w : World) : World :=
  mkWorld None (<[ACTIVE_CONTEXT_KEY := false]> (contextKeys w))
          (workspaceFolders w) (files w) (directories w)
          (notifications w) (shownDocuments w) (openedLinks w).

(** ** Whole runs *)

(** The link [_launchContactLink] opens. *)
Definition CONTACT_LINK : string := "https://frankkmods.com/#/contact".

(** The labels [_handlePopupClick] has a [case] for. *)
Definition handled_button (b : string) : bool :=
  String.eqb b _GET_HELP_BUTTON || String.eqb b _REPORT_PROBLEM_BUTTON
  || String.eqb b _RELOAD_CONFIG_BUTTON || String.eqb b _CREATE_PROJECT_BUTTON.

(** Events handled one after the other, each in the state the previous
    one left. *)
Definition run (events : list Event) (w : World) : World :=
  fold_left (fun w ev => snd (handle ev w)) events w.

(** The events whose handlers call [writeFile] or [createDirectory], and
    the change of the files from outside. *)
Definition may_write (ev : Event) : bool :=
  match ev with
  | CreateDefaultProject | SetDefaultStbl _ | FilesChanged _ => true
  | PopupClick (Some b) => String.eqb b _CREATE_PROJECT_BUTTON
  | _ => false
  end.

(** The configs the slot can come to hold: a value [parseConfig]
    returned, possibly edited by [setDefaultStbl]. *)
Inductive originates : S4TKConfig -> Prop :=
  | originates_parsed text config :
      parseConfig text = Returned config -> originates config
  | originates_edited config p :
      originates config -> originates (withDefaultPath config p).

(** The path of the string table [createDefaultProject] generates. *)
Definition defaultStblUri (root : Uri) : Uri :=
  joinPath (joinPath root "strings") "default.stbl.json".

(** What one event may do to the log, the links, the context keys and
    the slot: at most one more notification, whose buttons all have a
    [case]; only the contact link opened; only the [active] key written;
    and a slot that keeps holding a config that [originates]. *)
Definition step_effects (w w' : World) : Prop :=
  (exists added,
      notifications w' = notifications w ++ added /\
      length added <= 1 /\
      Forall (fun n => forallb handled_button (actions n) = true) added) /\
  (exists opened,
      openedLinks w' = openedLinks w ++ opened /\
      Forall (eq CONTACT_LINK) opened) /\
  (forall k,
      k <> ACTIVE_CONTEXT_KEY -> contextKeys w' !! k = contextKeys w !! k) /\
  ((forall config, _config w = Some config -> originates config) ->
   forall config, _config w' = Some config -> originates config).

End Workspace.


Arguments StringTables : clear implicits.
Arguments S4TKConfig : clear implicits.
Arguments Collaborators : clear implicits.
Arguments World : clear implicits.

(** ** Test doubles

    Concrete collaborators and worlds on which the model can be run: a
    host that joins paths with a slash, and a stand-in for the config
    module that knows the empty object and the object with a single
    [stringTables.defaultPath]. *)

Module Fixture.

Definition quote : string := String "034"%char EmptyString.

Definition OPENING : string :=
  "{" +:+ quote +:+ "stringTables" +:+ quote +:+ ":{" +:+ quote
  +:+ "defaultPath" +:+ quote +:+ ":" +:+ quote.
Definition CLOSING : string := quote +:+ "}}".

Definition parse (text : string) : Completion (S4TKConfig string) :=
  if String.eqb text "{}" then Returned (mkS4TKConfig None ∅)
  else if String.prefix OPENING text && endsWith text CLOSING then
    Returned
      (mkS4TKConfig
         (Some
            (mkStringTables
               (Some
                  (substring (String.length OPENING)
                     (String.length text - String.length OPENING
                      - String.length CLOSING) text))
               ∅))
         ∅)
  else if String.prefix "{" text then
    Thrown (ValidationError "instance requires property buildInstructions")
  else Thrown (SyntaxError "Unexpected token in JSON at position 0").

Definition stringify (config : S4TKConfig string) : string :=
  match stringTables config with
  | Some (mkStringTables (Some p) _) => OPENING +:+ p +:+ CLOSING
  | _ => "{}"
  end.

Definition join (base : Uri) (segment : string) : Uri :=
  mkUri (path base +:+ "/" +:+ segment) (fsPath base +:+ "/" +:+ segment).

Definition host : Collaborators string := {|
  joinPath := join;
  fileSystemErrorText := fun uri => "EntryNotFound (FileSystemError): " +:+ path uri;
  parseConfig := parse;
  stringifyConfig := stringify;
  DEFAULT_CONFIG_CONTENT := Buffer_from "{}";
  generateRandomContent := Buffer_from "[]"
|}.

Definition root : Uri := mkUri "/proj" "/proj".
Definition configPath : string := "/proj/s4tk.config.json".

(** A project folder whose config file holds [text]; nothing is loaded. *)
Definition project (text : string) : World string :=
  mkWorld None ∅ [root] {[configPath := Buffer_from text]} ∅ [] [] [].

(** An open folder without a config file. *)
Definition emptyFolder : World string := mkWorld None ∅ [root] ∅ ∅ [] [] [].

(** No folder is open. *)
Definition noFolder : World string := mkWorld None ∅ [] ∅ ∅ [] [] [].

Definition oldConfig : S4TKConfig string :=
  mkS4TKConfig (Some (mkStringTables (Some "/old") ∅)) ∅.

(** The project above after its config was loaded. *)
Definition loadedProject : World string :=
  mkWorld (Some oldConfig) {[ACTIVE_CONTEXT_KEY := true]} [root]
          {[configPath := Buffer_from (stringify oldConfig)]} ∅ [] [] [].

(** A config is loaded, but the folder has since been closed. *)
Definition orphaned : World string :=
  mkWorld (Some oldConfig) {[ACTIVE_CONTEXT_KEY := true]} []
          {[configPath := Buffer_from (stringify oldConfig)]} ∅ [] [] [].

(** The uri of a string table whose file-system path is [/new]. *)
Definition newStbl : Uri := mkUri "/new" "/new".

(** A file named like the config file, in a subfolder of the project. *)
Definition backupCopy : Uri :=
  mkUri "/proj/backup/s4tk.config.json" "/proj/backup/s4tk.config.json".

End Fixture.

(** ** Running the method bodies *)

Ltac run_M :=
  unfold void, set_config, _findConfig, get_rootUri, get_config, fileExists,
    readFile, non_null, joinPath_cast, liftCompletion, showInformationMessage,
    showWarningMessage, showErrorMessage, notify, assign_config,
    executeCommand_setContext, writeFile, createDirectory, showTextDocument,
    openExternal, try_catch, mbind, mret, M_bind, M_ret, bind, ret, throw;
  simpl.

Example fixture_join :
  path (Fixture.join Fixture.root CONFIG_FILENAME) = Fixture.configPath.
Proof. reflexivity. Qed.

Example fixture_load :
  fst (loadConfig (collaborators := Fixture.host) None
         (Fixture.project (Fixture.stringify Fixture.oldConfig)))
  = Returned (Some Fixture.oldConfig).
Proof. vm_compute. reflexivity. Qed.

Example fixture_load_syntax :
  fst (loadConfig (collaborators := Fixture.host) None
         (Fixture.project "not json"))
  = Returned None.
Proof. vm_compute. reflexivity. Qed.

Section Facts.

Context {Json : Type} {collaborators : Collaborators Json}.
Implicit Types (w : World Json) (config : S4TKConfig Json).

Lemma set_config_run (config : option (S4TKConfig Json)) w :
  set_config config w
  = (Returned tt,
     mkWorld config (<[ACTIVE_CONTEXT_KEY := Boolean config]> (contextKeys w))
             (workspaceFolders w) (files w) (directories w)
             (notifications w) (shownDocuments w) (openedLinks w)).
Proof. reflexivity. Qed.

Lemma _findConfig_run w :
  _findConfig w
  = (Returned
       match rootUri w with
       | None => mkConfigUriInfo None false
       | Some root =>
           mkConfigUriInfo
             (Some (backingUri root))
             (bool_decide (is_Some (files w !! path (backingUri root))))
       end, w).
Proof. run_M. destruct (rootUri w); reflexivity. Qed.

(** The three ways a run of [loadConfig] ends, by what the folder holds. *)
Lemma loadConfig_no_folder options w :
  rootUri w = None ->
  loadConfig options w
  = (Returned None,
     if wants_NoConfigError options then
       notified noConfigFound (cleared w)
     else cleared w).
Proof.
  intros Hroot. unfold loadConfig.
  unfold mbind at 1, M_bind, bind. rewrite set_config_run.
  unfold mbind at 1, bind. rewrite _findConfig_run.
  unfold rootUri in *. simpl. rewrite Hroot. simpl.
  destruct (wants_NoConfigError options); reflexivity.
Qed.

Lemma loadConfig_no_file options w root :
  rootUri w = Some root ->
  files w !! path (backingUri root) = None ->
  loadConfig options w
  = (Returned None,
     if wants_NoConfigError options then
       notified noConfigFound (cleared w)
     else cleared w).
Proof.
  intros Hroot Hfile. unfold loadConfig.
  unfold mbind at 1, M_bind, bind. rewrite set_config_run.
  unfold mbind at 1, bind. rewrite _findConfig_run.
  unfold rootUri in *. simpl. rewrite Hroot. simpl. rewrite Hfile.
  rewrite bool_decide_eq_false_2 by (intros [? ?]; discriminate). simpl.
  destruct (wants_NoConfigError options); reflexivity.
Qed.

Lemma loadConfig_file options w root content :
  rootUri w = Some root ->
  files w !! path (backingUri root) = Some content ->
  loadConfig options w
  = match parseConfig (toString content) with
    | Returned config =>
        (Returned (Some config),
         snd (set_config (Some config)
                (notified successfullyLoaded (cleared w))))
    | Thrown err =>
        (Returned None, notified (couldNotLoad err) (cleared w))
    end.
Proof.
  intros Hroot Hfile. unfold loadConfig.
  unfold mbind at 1, M_bind, bind. rewrite set_config_run.
  unfold mbind at 1, bind. rewrite _findConfig_run.
  unfold rootUri in *. simpl. rewrite Hroot. simpl. rewrite Hfile.
  rewrite bool_decide_eq_true_2 by eauto. simpl.
  run_M. rewrite Hfile.
  destruct (parseConfig (toString content)); reflexivity.
Qed.

Lemma cleared_idem w : cleared (cleared w) = cleared w.
Proof. unfold cleared; simpl. by rewrite insert_insert_eq. Qed.

(** A run of [loadConfig] does not depend on what was loaded before. *)
Lemma loadConfig_cleared options w :
  loadConfig options w = loadConfig options (cleared w).
Proof.
  destruct (rootUri w) as [root|] eqn:Hroot.
  - destruct (files w !! path (backingUri root)) as [content|] eqn:Hfile.
    + rewrite (loadConfig_file options w root content Hroot Hfile).
      rewrite (loadConfig_file options (cleared w) root content Hroot Hfile).
      by rewrite cleared_idem.
    + rewrite (loadConfig_no_file options w root Hroot Hfile).
      rewrite (loadConfig_no_file options (cleared w) root Hroot Hfile).
      by rewrite cleared_idem.
  - rewrite (loadConfig_no_folder options w Hroot).
    rewrite (loadConfig_no_folder options (cleared w) Hroot).
    by rewrite cleared_idem.
Qed.

Lemma includes_couldNotValidate detail :
  includes (couldNotValidate detail) detail.
Proof. unfold includes, couldNotValidate. eauto. Qed.

(** C1: when the backing file exists and its text parses and validates
    ([parseConfig] returns [config]), [loadConfig] returns [config],
    the slot holds that same [config], [active] is true and so is the
    context key the host sees; the only message is the one reporting
    success. *)
Theorem loadConfig_stores_parsed_config options w root content config :
  rootUri w = Some root ->
  files w !! path (backingUri root) = Some content ->
  parseConfig (toString content) = Returned config ->
  exists w',
    loadConfig options w = (Returned (Some config), w') /\
    _config w' = Some config /\
    active w' = true /\
    contextActive w' = true /\
    notifications w'
    = notifications w
      ++ [mkNotification Information "Successfully loaded S4TK config." []].
Proof.
  intros Hroot Hfile Hparse.
  rewrite (loadConfig_file options w root content Hroot Hfile), Hparse.
  eexists; split; [reflexivity|].
  unfold active, contextActive; simpl.
  by rewrite lookup_insert_eq.
Qed.

(** C2: [loadConfig] starts by clearing the slot, so its run is the run
    from the cleared state; and whenever it fails (no folder is open,
    the backing file is absent, or [parseConfig] throws; a syntax error, a
    validation error or anything else), it returns [undefined] and the
    slot is empty afterwards, whatever it held before. *)
Theorem loadConfig_failure_leaves_unloaded options w :
  rootUri w = None \/
  (exists root,
      rootUri w = Some root /\ files w !! path (backingUri root) = None) \/
  (exists root content err,
      rootUri w = Some root /\
      files w !! path (backingUri root) = Some content /\
      parseConfig (toString content) = Thrown err) ->
  _config (cleared w) = None /\
  loadConfig options w = loadConfig options (cleared w) /\
  exists w',
    loadConfig options w = (Returned None, w') /\
    _config w' = None /\
    active w' = false /\
    contextActive w' = false.
Proof.
  intros Hfail. split; [reflexivity|]. split; [apply loadConfig_cleared|].
  destruct Hfail as [Hroot|[(root & Hroot & Hfile)|(root & content & err & Hroot & Hfile & Hparse)]].
  - rewrite (loadConfig_no_folder options w Hroot).
    eexists; split; [reflexivity|].
    unfold active, contextActive.
    destruct (wants_NoConfigError options); simpl;
      by rewrite lookup_insert_eq.
  - rewrite (loadConfig_no_file options w root Hroot Hfile).
    eexists; split; [reflexivity|].
    unfold active, contextActive.
    destruct (wants_NoConfigError options); simpl;
      by rewrite lookup_insert_eq.
  - rewrite (loadConfig_file options w root content Hroot Hfile), Hparse.
    eexists; split; [reflexivity|].
    unfold active, contextActive; simpl.
    by rewrite lookup_insert_eq.
Qed.

Lemma loadConfig_returns options w :
  exists result w', loadConfig options w = (Returned result, w').
Proof.
  destruct (rootUri w) as [root|] eqn:Hroot.
  - destruct (files w !! path (backingUri root)) as [content|] eqn:Hfile.
    + rewrite (loadConfig_file options w root content Hroot Hfile).
      destruct (parseConfig (toString content)); eauto.
    + rewrite (loadConfig_no_file options w root Hroot Hfile). eauto.
  - rewrite (loadConfig_no_folder options w Hroot). eauto.
Qed.

(** C3: [loadConfig] always returns (no exception leaves it).  When
    [parseConfig] throws a [SyntaxError], exactly one notification is
    added, an error whose text includes the error's [message]; when it
    throws a [ValidationError], exactly one notification is added, an
    error whose text includes the error's [stack] (the violation's
    property path and message).  Both offer "Get Help" and
    "Reload Config". *)
Theorem loadConfig_reports_and_never_throws options w :
  (exists result w', loadConfig options w = (Returned result, w')) /\
  (forall root content detail,
      rootUri w = Some root ->
      files w !! path (backingUri root) = Some content ->
      parseConfig (toString content) = Thrown (SyntaxError detail) \/
      parseConfig (toString content) = Thrown (ValidationError detail) ->
      exists w',
        loadConfig options w = (Returned None, w') /\
        notifications w'
        = notifications w
          ++ [mkNotification Error (couldNotValidate detail)
                [_GET_HELP_BUTTON; _RELOAD_CONFIG_BUTTON]] /\
        includes (couldNotValidate detail) detail).
Proof.
  split.
  - apply loadConfig_returns.
  - intros root content detail Hroot Hfile Hparse.
    rewrite (loadConfig_file options w root content Hroot Hfile).
    destruct Hparse as [-> | ->]; simpl;
      (eexists; split; [reflexivity|]; split; [reflexivity|]);
      apply includes_couldNotValidate.
Qed.

(** *** The delete listener *)

Lemma onDidDeleteFiles_match deleted w :
  existsb (fun uri => endsWith (path uri) CONFIG_FILENAME) deleted = true ->
  onDidDeleteFiles deleted w
  = (Returned tt,
     notified (mkNotification Warning "S4TK config unloaded." []) (cleared w)).
Proof. intros H. unfold onDidDeleteFiles. rewrite H. reflexivity. Qed.

Lemma onDidDeleteFiles_no_match deleted w :
  existsb (fun uri => endsWith (path uri) CONFIG_FILENAME) deleted = false ->
  onDidDeleteFiles deleted w = (Returned tt, w).
Proof. intros H. unfold onDidDeleteFiles. rewrite H. reflexivity. Qed.

(** C4 (amended): the listener goes by the file name.  If a deleted uri
    has a path ending in [CONFIG_FILENAME] (so in particular if the
    backing file is among the deleted ones, its path ending in that
    name), the slot is emptied, [active] becomes false and exactly one
    warning is added; if no deleted path ends in [CONFIG_FILENAME], the
    listener changes nothing. *)
Theorem onDidDeleteFiles_goes_by_file_name deleted w :
  (existsb (fun uri => endsWith (path uri) CONFIG_FILENAME) deleted = true ->
   exists w',
     onDidDeleteFiles deleted w = (Returned tt, w') /\
     _config w' = None /\
     active w' = false /\
     contextActive w' = false /\
     files w' = files w /\
     notifications w'
     = notifications w ++ [mkNotification Warning "S4TK config unloaded." []]) /\
  (forall root u,
      rootUri w = Some root ->
      endsWith (path (backingUri root)) CONFIG_FILENAME = true ->
      In u deleted -> path u = path (backingUri root) ->
      existsb (fun uri => endsWith (path uri) CONFIG_FILENAME) deleted = true) /\
  ((forall u, In u deleted -> endsWith (path u) CONFIG_FILENAME = false) ->
   onDidDeleteFiles deleted w = (Returned tt, w)).
Proof.
  split; [|split].
  - intros Hmatch. rewrite (onDidDeleteFiles_match deleted w Hmatch).
    eexists; split; [reflexivity|].
    unfold active, contextActive; simpl.
    by rewrite lookup_insert_eq.
  - intros root u _ Hends Hin Hpath.
    apply existsb_exists. exists u. split; [assumption|].
    by rewrite Hpath.
  - intros Hnone. apply onDidDeleteFiles_no_match.
    destruct (existsb _ deleted) eqn:Hex; [|reflexivity].
    apply existsb_exists in Hex as (u & Hin & Hends).
    rewrite (Hnone u Hin) in Hends. discriminate.
Qed.

(** *** [setDefaultStbl] *)

Lemma setDefaultStbl_run stblUri w :
  setDefaultStbl stblUri w
  = match _config w with
    | None =>
        (Returned tt,
         notified
           (mkNotification Error
              "Cannot set this STBL as default because no S4TK config is currently loaded."
              [_RELOAD_CONFIG_BUTTON]) w)
    | Some config =>
        let config' := withDefaultPath config (fsPath stblUri) in
        let w1 := snd (assign_config (Some config') w) in
        match rootUri w with
        | Some root =>
            (Returned tt,
             snd (writeFile (backingUri root)
                    (Buffer_from (stringifyConfig config')) w1))
        | None =>
            (Returned tt,
             notified
               (mkNotification Error
                  "Failed to locate config file while updating default STBL. Please report this problem."
                  [_REPORT_PROBLEM_BUTTON]) w1)
        end
    end.
Proof.
  unfold setDefaultStbl. run_M. unfold rootUri.
  destruct (_config w) as [config|]; [|reflexivity].
  simpl. destruct (head (workspaceFolders w)); reflexivity.
Qed.

Lemma withDefaultPath_defaultPath config p :
  configDefaultPath (withDefaultPath config p) = Some p.
Proof.
  unfold configDefaultPath, withDefaultPath.
  destruct (stringTables config); reflexivity.
Qed.

Lemma toString_Buffer_from text : toString (Buffer_from text) = text.
Proof. apply string_of_list_byte_of_string. Qed.

(** C5: with a config loaded, [setDefaultStbl stblUri] leaves in the
    slot the config with [stringTables.defaultPath] equal to
    [stblUri.fsPath]: a new [stringTables] object holding just that path
    when there was none, the old one with only that property replaced
    otherwise, and the rest of the config as it was.  When the backing
    file is located, the only change to the files is that it now holds
    the serialization of that config; and if the config module reads its
    own output back ([parses_back]), parsing the written file returns a
    config whose default path is [stblUri.fsPath]. *)
Theorem setDefaultStbl_sets_and_persists stblUri w config :
  _config w = Some config ->
  exists w' config',
    config' = withDefaultPath config (fsPath stblUri) /\
    setDefaultStbl stblUri w = (Returned tt, w') /\
    _config w' = Some config' /\
    configDefaultPath config' = Some (fsPath stblUri) /\
    configRest config' = configRest config /\
    (stringTables config = None ->
     stringTables config' = Some (mkStringTables (Some (fsPath stblUri)) ∅)) /\
    (forall st,
        stringTables config = Some st ->
        stringTables config'
        = Some (mkStringTables (Some (fsPath stblUri)) (stringTablesRest st))) /\
    (forall root,
        rootUri w = Some root ->
        files w'
        = <[path (backingUri root) := Buffer_from (stringifyConfig config')]>
            (files w) /\
        notifications w' = notifications w /\
        (parses_back config' ->
         exists content reread,
           files w' !! path (backingUri root) = Some content /\
           parseConfig (toString content) = Returned reread /\
           configDefaultPath reread = Some (fsPath stblUri))).
Proof.
  intros Hconfig.
  exists (snd (setDefaultStbl stblUri w)),
    (withDefaultPath config (fsPath stblUri)).
  split; [reflexivity|].
  rewrite setDefaultStbl_run, Hconfig. cbv zeta.
  split; [destruct (rootUri w); reflexivity|].
  split; [destruct (rootUri w); reflexivity|].
  split; [apply withDefaultPath_defaultPath|].
  split; [unfold withDefaultPath; destruct (stringTables config); reflexivity|].
  split; [intros Hnone; unfold withDefaultPath; by rewrite Hnone|].
  split; [intros st Hst; unfold withDefaultPath; by rewrite Hst|].
  intros root Hroot. rewrite Hroot. simpl.
  split; [reflexivity|]. split; [reflexivity|].
  intros Hback. eexists; eexists.
  split; [apply lookup_insert_eq|].
  rewrite toString_Buffer_from.
  split; [exact Hback|apply withDefaultPath_defaultPath].
Qed.

(** C6: with nothing loaded, [setDefaultStbl] returns normally after
    adding one error message that offers "Reload Config"; the slot, the
    context keys, the files and the folders are what they were. *)
Theorem setDefaultStbl_unloaded_only_reports stblUri w :
  _config w = None ->
  exists w',
    setDefaultStbl stblUri w = (Returned tt, w') /\
    notifications w'
    = notifications w
      ++ [mkNotification Error
            "Cannot set this STBL as default because no S4TK config is currently loaded."
            [_RELOAD_CONFIG_BUTTON]] /\
    _config w' = None /\
    contextKeys w' = contextKeys w /\
    files w' = files w /\
    directories w' = directories w /\
    workspaceFolders w' = workspaceFolders w.
Proof.
  intros Hconfig. rewrite setDefaultStbl_run, Hconfig.
  eexists; split; [reflexivity|]. simpl. by rewrite Hconfig.
Qed.

(** C7: with a config loaded but no folder to locate the backing file
    in, [setDefaultStbl] returns normally after adding one error message
    that offers "Report Problem"; the slot holds the changed config, and
    no file was written. *)
Theorem setDefaultStbl_unlocated_keeps_mutation stblUri w config :
  _config w = Some config ->
  rootUri w = None ->
  exists w',
    setDefaultStbl stblUri w = (Returned tt, w') /\
    _config w' = Some (withDefaultPath config (fsPath stblUri)) /\
    configDefaultPath (withDefaultPath config (fsPath stblUri))
    = Some (fsPath stblUri) /\
    files w' = files w /\
    notifications w'
    = notifications w
      ++ [mkNotification Error
            "Failed to locate config file while updating default STBL. Please report this problem."
            [_REPORT_PROBLEM_BUTTON]].
Proof.
  intros Hconfig Hroot. rewrite setDefaultStbl_run, Hconfig, Hroot.
  eexists; split; [reflexivity|]. simpl.
  split; [reflexivity|]. split; [apply withDefaultPath_defaultPath|].
  split; reflexivity.
Qed.

(** *** What [loadConfig] leaves alone *)

Lemma loadConfig_frame options w :
  files (snd (loadConfig options w)) = files w /\
  workspaceFolders (snd (loadConfig options w)) = workspaceFolders w /\
  directories (snd (loadConfig options w)) = directories w.
Proof.
  destruct (rootUri w) as [root|] eqn:Hroot.
  - destruct (files w !! path (backingUri root)) as [content|] eqn:Hfile.
    + rewrite (loadConfig_file options w root content Hroot Hfile).
      destruct (parseConfig (toString content)); auto.
    + rewrite (loadConfig_no_file options w root Hroot Hfile).
      destruct (wants_NoConfigError options); auto.
  - rewrite (loadConfig_no_folder options w Hroot).
    destruct (wants_NoConfigError options); auto.
Qed.

Lemma void_loadConfig options w :
  void (loadConfig options) w = (Returned tt, snd (loadConfig options w)).
Proof.
  unfold void, mbind, M_bind, bind.
  destruct (loadConfig_returns options w) as (result & w' & ->).
  reflexivity.
Qed.

(** *** [createDefaultProject] *)

Lemma createDefaultProject_existing w root :
  rootUri w = Some root ->
  is_Some (files w !! path (backingUri root)) ->
  createDefaultProject w = (Returned tt, notified alreadyExists w).
Proof.
  intros Hroot Hfile. unfold createDefaultProject.
  unfold mbind at 1, M_bind, bind. rewrite _findConfig_run, Hroot.
  simpl. by rewrite bool_decide_eq_true_2.
Qed.

Lemma createDefaultProject_no_folder w :
  rootUri w = None ->
  createDefaultProject w
  = (Returned tt,
     notified
       (mkNotification Error
          "Failed to create config file. Please report this problem."
          [_REPORT_PROBLEM_BUTTON]) w).
Proof.
  intros Hroot. unfold createDefaultProject.
  unfold mbind at 1, M_bind, bind. by rewrite _findConfig_run, Hroot.
Qed.

Lemma createDefaultProject_fresh w root :
  rootUri w = Some root ->
  files w !! path (backingUri root) = None ->
  createDefaultProject w
  = (Returned tt, snd (loadConfig None (scaffolded root w))).
Proof.
  intros Hroot Hfile. unfold createDefaultProject.
  unfold mbind at 1, M_bind, bind. rewrite _findConfig_run, Hroot.
  simpl. rewrite Hfile.
  rewrite bool_decide_eq_false_2 by (intros [? ?]; discriminate).
  run_M. unfold rootUri in *. simpl. rewrite Hroot. simpl.
  unfold scaffolded, backingUri.
  destruct (bool_decide _); simpl;
    match goal with
    | |- context [loadConfig None ?W] =>
        destruct (loadConfig_returns None W) as (result & w' & ->)
    end; reflexivity.
Qed.

Lemma createDefaultProject_keeps_backing_file w root :
  rootUri w = Some root ->
  rootUri (snd (createDefaultProject w)) = Some root /\
  is_Some (files (snd (createDefaultProject w)) !! path (backingUri root)).
Proof.
  intros Hroot.
  destruct (files w !! path (backingUri root)) as [content|] eqn:Hfile.
  - rewrite (createDefaultProject_existing w root Hroot) by eauto.
    simpl. split; [assumption|]. unfold notified; simpl. eauto.
  - rewrite (createDefaultProject_fresh w root Hroot Hfile). simpl.
    destruct (loadConfig_frame None (scaffolded root w)) as (Hf & Hw & _).
    unfold rootUri in *. rewrite Hf, Hw. simpl.
    split; [assumption|].
    unfold backingUri. case_bool_decide.
    + rewrite lookup_insert_eq. eauto.
    + destruct (decide (path (joinPath (joinPath root "strings")
                                "default.stbl.json")
                        = path (joinPath root CONFIG_FILENAME))) as [->|Hne].
      * rewrite lookup_insert_eq. eauto.
      * rewrite lookup_insert_ne by assumption.
        rewrite lookup_insert_eq. eauto.
Qed.

(** C8: when the config file exists at the project root,
    [createDefaultProject] returns after adding one warning and nothing
    else: the files, the folders, the slot, the context keys and the
    opened documents are what they were.  A second call always finds
    the file, so it only warns. *)
Theorem createDefaultProject_existing_only_warns w root :
  rootUri w = Some root ->
  (is_Some (files w !! path (backingUri root)) ->
   exists w',
     createDefaultProject w = (Returned tt, w') /\
     notifications w' = notifications w ++ [alreadyExists] /\
     files w' = files w /\
     directories w' = directories w /\
     _config w' = _config w /\
     contextKeys w' = contextKeys w /\
     shownDocuments w' = shownDocuments w /\
     workspaceFolders w' = workspaceFolders w) /\
  createDefaultProject (snd (createDefaultProject w))
  = (Returned tt, notified alreadyExists (snd (createDefaultProject w))).
Proof.
  intros Hroot. split.
  - intros Hfile. rewrite (createDefaultProject_existing w root Hroot Hfile).
    eexists; split; [reflexivity|]. simpl. tauto.
  - destruct (createDefaultProject_keeps_backing_file w root Hroot)
      as [Hroot' Hfile'].
    apply (createDefaultProject_existing _ root Hroot' Hfile').
Qed.

(** *** The context key follows the slot *)

Lemma in_step_cleared w : in_step (cleared w).
Proof. unfold in_step, contextActive, active; simpl. by rewrite lookup_insert_eq. Qed.

Lemma in_step_notified n w : in_step w -> in_step (notified n w).
Proof. trivial. Qed.

Lemma in_step_loadConfig options w : in_step (snd (loadConfig options w)).
Proof.
  destruct (rootUri w) as [root|] eqn:Hroot.
  - destruct (files w !! path (backingUri root)) as [content|] eqn:Hfile.
    + rewrite (loadConfig_file options w root content Hroot Hfile).
      destruct (parseConfig (toString content)); cbn [snd].
      * unfold in_step, contextActive, active; simpl.
        by rewrite lookup_insert_eq.
      * apply in_step_notified, in_step_cleared.
    + rewrite (loadConfig_no_file options w root Hroot Hfile).
      destruct (wants_NoConfigError options); cbn [snd];
        [apply in_step_notified|]; apply in_step_cleared.
  - rewrite (loadConfig_no_folder options w Hroot).
    destruct (wants_NoConfigError options); cbn [snd];
      [apply in_step_notified|]; apply in_step_cleared.
Qed.

Lemma in_step_onDidDeleteFiles deleted w :
  in_step w -> in_step (snd (onDidDeleteFiles deleted w)).
Proof.
  intros Hw.
  destruct (existsb (fun uri => endsWith (path uri) CONFIG_FILENAME) deleted)
    eqn:Hmatch.
  - rewrite (onDidDeleteFiles_match deleted w Hmatch).
    apply in_step_notified, in_step_cleared.
  - by rewrite (onDidDeleteFiles_no_match deleted w Hmatch).
Qed.

Lemma in_step_setDefaultStbl stblUri w :
  in_step w -> in_step (snd (setDefaultStbl stblUri w)).
Proof.
  unfold in_step, contextActive, active. intros Hw.
  rewrite setDefaultStbl_run.
  destruct (_config w) as [config|] eqn:Hconfig; [|simpl; by rewrite Hconfig].
  cbv zeta. destruct (rootUri w); exact Hw.
Qed.

Lemma in_step_createDefaultProject w :
  in_step w -> in_step (snd (createDefaultProject w)).
Proof.
  intros Hw. destruct (rootUri w) as [root|] eqn:Hroot.
  - destruct (files w !! path (backingUri root)) as [content|] eqn:Hfile.
    + rewrite (createDefaultProject_existing w root Hroot) by eauto.
      exact Hw.
    + rewrite (createDefaultProject_fresh w root Hroot Hfile).
      apply in_step_loadConfig.
  - rewrite (createDefaultProject_no_folder w Hroot). exact Hw.
Qed.

Lemma in_step_handlePopupClick button w :
  in_step w -> in_step (snd (_handlePopupClick button w)).
Proof.
  intros Hw. unfold _handlePopupClick.
  destruct button as [b|]; [|exact Hw].
  destruct (_ || _); [exact Hw|].
  destruct (String.eqb b _RELOAD_CONFIG_BUTTON).
  - change (in_step (snd (void (loadConfig (Some (mkLoadOptions (Some true)))) w))).
    rewrite void_loadConfig. apply in_step_loadConfig.
  - destruct (String.eqb b _CREATE_PROJECT_BUTTON); [|exact Hw].
    by apply in_step_createDefaultProject.
Qed.

Lemma in_step_handle ev w : in_step w -> in_step (snd (handle ev w)).
Proof.
  intros Hw. destruct ev; simpl.
  - change (in_step (snd (void (loadConfig None) w))).
    rewrite void_loadConfig. apply in_step_loadConfig.
  - unfold onDidSaveTextDocument.
    destruct (endsWith fileName CONFIG_FILENAME); [|exact Hw].
    change (in_step (snd (void (loadConfig None) w))).
    rewrite void_loadConfig. apply in_step_loadConfig.
  - by apply in_step_onDidDeleteFiles.
  - rewrite void_loadConfig. apply in_step_loadConfig.
  - by apply in_step_createDefaultProject.
  - by apply in_step_setDefaultStbl.
  - by apply in_step_handlePopupClick.
  - exact Hw.
  - exact Hw.
Qed.

Lemma in_step_initial w : initial w -> in_step w.
Proof.
  intros [Hconfig Hkey]. unfold in_step, contextActive, active.
  by rewrite Hconfig, Hkey.
Qed.

(** C9: the setter stores the config and sets the context key to
    [Boolean(config)] in the same step, leaving the key equal to
    [active]; and in every state the workspace can reach (by calls of its
    methods, listener and button events, and changes to the files and
    folders) the key the host sees equals [active], which is true
    exactly when the slot holds a config. *)
Theorem context_key_follows_the_slot :
  (forall (config : option (S4TKConfig Json)) w,
      exists w',
        set_config config w = (Returned tt, w') /\
        _config w' = config /\
        contextKeys w' !! ACTIVE_CONTEXT_KEY = Some (Boolean config) /\
        contextActive w' = active w') /\
  (forall w,
      reachable w ->
      contextActive w = active w /\
      (active w = true <-> exists config, _config w = Some config)).
Proof.
  split.
  - intros config w. rewrite set_config_run.
    eexists; split; [reflexivity|].
    unfold contextActive, active; simpl.
    rewrite lookup_insert_eq. auto.
  - intros w Hreach. split.
    + induction Hreach as [w Hinit|w ev _ IH].
      * by apply in_step_initial.
      * by apply in_step_handle.
    + unfold active. destruct (_config w) as [config|]; simpl.
      * split; eauto.
      * split; [discriminate|]. intros [? ?]; discriminate.
Qed.

End Facts.

(** ** [isURI] returns whether the constructor accepted *)

(** C10: whatever it is given, [isURI] returns a boolean and does not
    throw: [true] exactly when [new URL(something)] returns, [false]
    exactly when it throws. *)
Theorem isURI_is_total_and_decides {JSAny URL : Type}
    (new_URL : JSAny -> Completion URL) (something : JSAny) :
  exists b,
    isURI JSAny URL new_URL something = Returned b /\
    (b = true <-> exists url, new_URL something = Returned url) /\
    (b = false <-> exists err, new_URL something = Thrown err).
Proof.
  unfold isURI, Completion_catch, Completion_bind.
  destruct (new_URL something) as [url|err].
  - exists true. split; [reflexivity|]. split; split; eauto.
    + discriminate.
    + intros [? ?]; discriminate.
  - exists false. split; [reflexivity|]. split; split; eauto.
    + discriminate.
    + intros [? ?]; discriminate.
Qed.

(** ** The statements at concrete inputs *)

Lemma loadConfig_stores_parsed_config_witness :
  exists w',
    loadConfig (collaborators := Fixture.host) None
      (Fixture.project (Fixture.stringify Fixture.oldConfig))
    = (Returned (Some Fixture.oldConfig), w') /\
    _config w' = Some Fixture.oldConfig /\
    active w' = true /\
    contextActive w' = true /\
    notifications w' = [successfullyLoaded].
Proof.
  apply (loadConfig_stores_parsed_config (collaborators := Fixture.host)
           None (Fixture.project (Fixture.stringify Fixture.oldConfig))
           Fixture.root
           (Buffer_from (Fixture.stringify Fixture.oldConfig))
           Fixture.oldConfig);
    vm_compute; reflexivity.
Defined.

Lemma loadConfig_failure_leaves_unloaded_witness :
  exists w',
    loadConfig (collaborators := Fixture.host) None
      (Fixture.project "not json")
    = (Returned None, w') /\
    _config w' = None /\
    active w' = false /\
    contextActive w' = false.
Proof.
  apply (loadConfig_failure_leaves_unloaded (collaborators := Fixture.host)
           None (Fixture.project "not json")).
  right; right.
  exists Fixture.root, (Buffer_from "not json"),
    (SyntaxError "Unexpected token in JSON at position 0").
  repeat split; vm_compute; reflexivity.
Defined.

Lemma loadConfig_reports_and_never_throws_witness :
  exists w',
    loadConfig (collaborators := Fixture.host) None
      (Fixture.project "{ }")
    = (Returned None, w') /\
    notifications w'
    = [couldNotLoad
         (ValidationError "instance requires property buildInstructions")] /\
    includes
      (couldNotValidate "instance requires property buildInstructions")
      "instance requires property buildInstructions".
Proof.
  apply (proj2 (loadConfig_reports_and_never_throws
                  (collaborators := Fixture.host) None
                  (Fixture.project "{ }"))
           Fixture.root (Buffer_from "{ }")
           "instance requires property buildInstructions").
  - vm_compute; reflexivity.
  - vm_compute; reflexivity.
  - right. vm_compute; reflexivity.
Defined.

Lemma onDidDeleteFiles_goes_by_file_name_witness :
  exists w',
    onDidDeleteFiles
      [backingUri (collaborators := Fixture.host) Fixture.root]
      Fixture.loadedProject
    = (Returned tt, w') /\
    _config w' = None /\
    active w' = false /\
    contextActive w' = false /\
    files w' = files Fixture.loadedProject /\
    notifications w' = [mkNotification Warning "S4TK config unloaded." []].
Proof.
  apply (proj1 (onDidDeleteFiles_goes_by_file_name
                  (collaborators := Fixture.host)
                  [backingUri (collaborators := Fixture.host) Fixture.root]
                  Fixture.loadedProject)).
  vm_compute; reflexivity.
Defined.

(** C4 as stated fails: deleting a file that is not the backing file,
    but whose name ends like it, empties the slot. *)
Lemma onDidDeleteFiles_other_file_unloads :
  ~ (forall (w : World string) (deleted : list Uri) (root : Uri),
        rootUri w = Some root ->
        (forall u,
            In u deleted ->
            path u <> path (backingUri (collaborators := Fixture.host) root)) ->
        _config (snd (onDidDeleteFiles deleted w)) = _config w).
Proof.
  intros Hclaim.
  specialize (Hclaim Fixture.loadedProject [Fixture.backupCopy] Fixture.root
                eq_refl).
  assert (Hother : forall u,
             In u [Fixture.backupCopy] ->
             path u
             <> path (backingUri (collaborators := Fixture.host) Fixture.root)).
  { intros u [<-|[]]. vm_compute. discriminate. }
  specialize (Hclaim Hother). vm_compute in Hclaim. discriminate.
Qed.

Lemma setDefaultStbl_sets_and_persists_witness :
  exists w' config',
    setDefaultStbl (collaborators := Fixture.host) Fixture.newStbl
      Fixture.loadedProject
    = (Returned tt, w') /\
    _config w' = Some config' /\
    configDefaultPath config' = Some "/new" /\
    exists content reread,
      files w' !! Fixture.configPath = Some content /\
      Fixture.parse (toString content) = Returned reread /\
      configDefaultPath reread = Some "/new".
Proof.
  destruct (setDefaultStbl_sets_and_persists (collaborators := Fixture.host)
              Fixture.newStbl Fixture.loadedProject Fixture.oldConfig
              eq_refl)
    as (w' & config' & Hconfig' & Hrun & Hslot & Hpath & _ & _ & _ & Hfiles).
  exists w', config'. repeat (split; [assumption|]).
  destruct (Hfiles Fixture.root eq_refl) as (_ & _ & Hback).
  apply Hback. rewrite Hconfig'. vm_compute. reflexivity.
Defined.

Lemma setDefaultStbl_unloaded_only_reports_witness :
  exists w',
    setDefaultStbl (collaborators := Fixture.host) Fixture.newStbl
      (Fixture.project "{}")
    = (Returned tt, w') /\
    notifications w'
    = [mkNotification Error
         "Cannot set this STBL as default because no S4TK config is currently loaded."
         [_RELOAD_CONFIG_BUTTON]] /\
    _config w' = None /\
    contextKeys w' = ∅ /\
    files w' = files (Fixture.project "{}") /\
    directories w' = ∅ /\
    workspaceFolders w' = [Fixture.root].
Proof.
  apply (setDefaultStbl_unloaded_only_reports (collaborators := Fixture.host)
           Fixture.newStbl (Fixture.project "{}")).
  reflexivity.
Defined.

Lemma setDefaultStbl_unlocated_keeps_mutation_witness :
  exists w',
    setDefaultStbl (collaborators := Fixture.host) Fixture.newStbl
      Fixture.orphaned
    = (Returned tt, w') /\
    _config w' = Some (withDefaultPath Fixture.oldConfig "/new") /\
    configDefaultPath (withDefaultPath Fixture.oldConfig "/new")
    = Some "/new" /\
    files w' = files Fixture.orphaned /\
    notifications w'
    = [mkNotification Error
         "Failed to locate config file while updating default STBL. Please report this problem."
         [_REPORT_PROBLEM_BUTTON]].
Proof.
  apply (setDefaultStbl_unlocated_keeps_mutation
           (collaborators := Fixture.host) Fixture.newStbl Fixture.orphaned
           Fixture.oldConfig); reflexivity.
Defined.

Lemma createDefaultProject_existing_only_warns_witness :
  createDefaultProject (collaborators := Fixture.host)
    (snd (createDefaultProject (collaborators := Fixture.host)
            Fixture.emptyFolder))
  = (Returned tt,
     notified alreadyExists
       (snd (createDefaultProject (collaborators := Fixture.host)
               Fixture.emptyFolder))).
Proof.
  apply (proj2 (createDefaultProject_existing_only_warns
                  (collaborators := Fixture.host) Fixture.emptyFolder
                  Fixture.root eq_refl)).
Defined.

Lemma context_key_follows_the_slot_witness :
  contextActive
    (snd (handle (collaborators := Fixture.host) (LoadConfig None)
            (Fixture.project "{}")))
  = active
      (snd (handle (collaborators := Fixture.host) (LoadConfig None)
              (Fixture.project "{}"))).
Proof.
  apply (proj2 (context_key_follows_the_slot (collaborators := Fixture.host))).
  apply reachable_step, reachable_initial.
  split; reflexivity.
Defined.

(** ** Suffixes

    [endsWith] against concatenation: the listeners compare names by
    suffix. *)

Lemma substring_whole s : substring 0 (String.length s) s = s.
Proof. induction s as [|c s IH]; simpl; [reflexivity|by rewrite IH]. Qed.

Lemma substring_skip pre n s :
  substring (String.length pre) n (pre +:+ s) = substring 0 n s.
Proof. induction pre as [|c pre IH]; simpl; [reflexivity|exact IH]. Qed.

Lemma length_append a b :
  String.length (a +:+ b) = String.length a + String.length b.
Proof. induction a as [|c a IH]; simpl; [reflexivity|by rewrite IH]. Qed.

Lemma substring_split k s :
  k <= String.length s ->
  s = substring 0 k s +:+ substring k (String.length s - k) s.
Proof.
  revert k. induction s as [|c s IH]; intros [|k] Hk; simpl in *.
  - reflexivity.
  - lia.
  - by rewrite substring_whole.
  - change (String c s
            = String c (substring 0 k s
                        +:+ substring k (String.length s - k) s)).
    f_equal. apply IH. lia.
Qed.

Lemma endsWith_iff s suffix :
  endsWith s suffix = true <-> exists pre, s = pre +:+ suffix.
Proof.
  unfold endsWith. split.
  - intros [Hlen Heq]%andb_true_iff.
    apply Nat.leb_le in Hlen. apply String.eqb_eq in Heq.
    exists (substring 0 (String.length s - String.length suffix) s).
    pose proof (substring_split (String.length s - String.length suffix) s)
      as Hsplit.
    replace (String.length s - (String.length s - String.length suffix))
      with (String.length suffix) in Hsplit by lia.
    rewrite Heq in Hsplit. apply Hsplit. lia.
  - intros [pre ->]. rewrite length_append.
    rewrite (proj2 (Nat.leb_le _ _)) by lia. simpl.
    replace (String.length pre + String.length suffix - String.length suffix)
      with (String.length pre) by lia.
    rewrite substring_skip, substring_whole. apply String.eqb_refl.
Qed.

(** ** What every handler keeps *)

Section Behaviour.

Context {Json : Type} {collaborators : Collaborators Json}.
Implicit Types (w : World Json) (config : S4TKConfig Json).

Lemma step_effects_same w w' :
  notifications w' = notifications w ->
  openedLinks w' = openedLinks w ->
  contextKeys w' = contextKeys w ->
  _config w' = _config w ->
  step_effects w w'.
Proof.
  intros Hn Hl Hk Hc. unfold step_effects.
  split; [exists []; rewrite Hn, app_nil_r; auto|].
  split; [exists []; rewrite Hl, app_nil_r; auto|].
  split; [intros k _; by rewrite Hk|].
  rewrite Hc. auto.
Qed.

Lemma step_effects_notify w w' n :
  forallb handled_button (actions n) = true ->
  notifications w' = notifications w ++ [n] ->
  openedLinks w' = openedLinks w ->
  (forall k,
      k <> ACTIVE_CONTEXT_KEY -> contextKeys w' !! k = contextKeys w !! k) ->
  ((forall config, _config w = Some config -> originates config) ->
   forall config, _config w' = Some config -> originates config) ->
  step_effects w w'.
Proof.
  intros Hb Hn Hl Hk Hc. unfold step_effects.
  split; [exists [n]; auto|].
  split; [exists []; rewrite Hl, app_nil_r; auto|].
  auto.
Qed.

Lemma cleared_keys w k :
  k <> ACTIVE_CONTEXT_KEY ->
  contextKeys (cleared w) !! k = contextKeys w !! k.
Proof. intros Hk. unfold cleared; simpl. by rewrite lookup_insert_ne. Qed.

Lemma step_effects_loadConfig options w :
  step_effects w (snd (loadConfig options w)).
Proof.
  destruct (rootUri w) as [root|] eqn:Hroot.
  - destruct (files w !! path (backingUri root)) as [content|] eqn:Hfile.
    + rewrite (loadConfig_file options w root content Hroot Hfile).
      destruct (parseConfig (toString content)) as [config|err] eqn:Hparse;
        cbn [snd].
      * apply (step_effects_notify _ _ successfullyLoaded);
          [reflexivity|reflexivity|reflexivity| |].
        -- intros k Hk. simpl. by rewrite !lookup_insert_ne.
        -- intros _ config' [= <-]. by eapply originates_parsed.
      * apply (step_effects_notify _ _ (couldNotLoad err));
          [reflexivity|reflexivity|reflexivity| |].
        -- intros k Hk. by apply cleared_keys.
        -- intros _ config' [=].
    + rewrite (loadConfig_no_file options w root Hroot Hfile).
      destruct (wants_NoConfigError options); cbn [snd].
      * apply (step_effects_notify _ _ noConfigFound);
          [reflexivity|reflexivity|reflexivity| |].
        -- intros k Hk. by apply cleared_keys.
        -- intros _ config' [=].
      * unfold step_effects.
        split; [exists []; simpl; rewrite app_nil_r; auto|].
        split; [exists []; simpl; rewrite app_nil_r; auto|].
        split; [intros k Hk; by apply cleared_keys|].
        intros _ config' [=].
  - rewrite (loadConfig_no_folder options w Hroot).
    destruct (wants_NoConfigError options); cbn [snd].
    + apply (step_effects_notify _ _ noConfigFound);
        [reflexivity|reflexivity|reflexivity| |].
      * intros k Hk. by apply cleared_keys.
      * intros _ config' [=].
    + unfold step_effects.
      split; [exists []; simpl; rewrite app_nil_r; auto|].
      split; [exists []; simpl; rewrite app_nil_r; auto|].
      split; [intros k Hk; by apply cleared_keys|].
      intros _ config' [=].
Qed.

Lemma step_effects_setDefaultStbl stblUri w :
  step_effects w (snd (setDefaultStbl stblUri w)).
Proof.
  rewrite setDefaultStbl_run.
  destruct (_config w) as [config|] eqn:Hconfig.
  - cbv zeta. destruct (rootUri w); cbn [snd].
    + unfold step_effects.
      split; [exists []; simpl; rewrite app_nil_r; auto|].
      split; [exists []; simpl; rewrite app_nil_r; auto|].
      split; [reflexivity|].
      intros Hslot config' [= <-]. apply originates_edited, Hslot, Hconfig.
    + eapply step_effects_notify;
        [|reflexivity|reflexivity|reflexivity|]; [reflexivity|].
      intros Hslot config' [= <-]. apply originates_edited, Hslot, Hconfig.
  - cbn [snd]. eapply step_effects_notify;
      [|reflexivity|reflexivity|reflexivity|]; [reflexivity|].
    simpl. auto.
Qed.

Lemma step_effects_createDefaultProject w :
  step_effects w (snd (createDefaultProject w)).
Proof.
  destruct (rootUri w) as [root|] eqn:Hroot.
  - destruct (files w !! path (backingUri root)) as [content|] eqn:Hfile.
    + rewrite (createDefaultProject_existing w root Hroot) by eauto.
      cbn [snd]. eapply step_effects_notify;
        [|reflexivity|reflexivity|reflexivity|]; [reflexivity|].
      simpl. auto.
    + rewrite (createDefaultProject_fresh w root Hroot Hfile). cbn [snd].
      exact (step_effects_loadConfig None (scaffolded root w)).
  - rewrite (createDefaultProject_no_folder w Hroot). cbn [snd].
    eapply step_effects_notify;
      [|reflexivity|reflexivity|reflexivity|]; [reflexivity|].
    simpl. auto.
Qed.

Lemma step_effects_handlePopupClick button w :
  step_effects w (snd (_handlePopupClick button w)).
Proof.
  unfold _handlePopupClick.
  destruct button as [b|]; [|by apply step_effects_same].
  destruct (_ || _).
  - unfold step_effects.
    split; [exists []; simpl; rewrite app_nil_r; auto|].
    split; [exists [CONTACT_LINK]; auto|].
    split; [reflexivity|auto].
  - destruct (String.eqb b _RELOAD_CONFIG_BUTTON).
    + change (step_effects w
                (snd (void (loadConfig (Some (mkLoadOptions (Some true)))) w))).
      rewrite void_loadConfig. apply step_effects_loadConfig.
    + destruct (String.eqb b _CREATE_PROJECT_BUTTON);
        [apply step_effects_createDefaultProject|by apply step_effects_same].
Qed.

Lemma step_effects_handle ev w : step_effects w (snd (handle ev w)).
Proof.
  destruct ev; simpl.
  - change (step_effects w (snd (void (loadConfig None) w))).
    rewrite void_loadConfig. apply step_effects_loadConfig.
  - unfold onDidSaveTextDocument.
    destruct (endsWith fileName CONFIG_FILENAME);
      [|by apply step_effects_same].
    change (step_effects w (snd (void (loadConfig None) w))).
    rewrite void_loadConfig. apply step_effects_loadConfig.
  - destruct (existsb (fun uri => endsWith (path uri) CONFIG_FILENAME) deleted)
      eqn:Hmatch.
    + rewrite (onDidDeleteFiles_match deleted w Hmatch). cbn [snd].
      eapply step_effects_notify;
        [|reflexivity|reflexivity| |]; [reflexivity| |].
      * intros k Hk. by apply cleared_keys.
      * intros _ config' [=].
    + rewrite (onDidDeleteFiles_no_match deleted w Hmatch).
      by apply step_effects_same.
  - rewrite void_loadConfig. apply step_effects_loadConfig.
  - apply step_effects_createDefaultProject.
  - apply step_effects_setDefaultStbl.
  - apply step_effects_handlePopupClick.
  - by apply step_effects_same.
  - by apply step_effects_same.
Qed.

Lemma run_cons ev events w :
  run (ev :: events) w = run events (snd (handle ev w)).
Proof. reflexivity. Qed.

Lemma run_notifications events w :
  exists added,
    notifications (run events w) = notifications w ++ added /\
    length added <= length events /\
    Forall (fun n => forallb handled_button (actions n) = true) added.
Proof.
  revert w. induction events as [|ev events IH]; intros w.
  - exists []. simpl. rewrite app_nil_r. auto.
  - rewrite run_cons.
    destruct (step_effects_handle ev w) as ((first & Hfirst & Hone & Hb) & _).
    destruct (IH (snd (handle ev w))) as (rest & Hrest & Hlen & Hbs).
    exists (first ++ rest). rewrite Hrest, Hfirst, <- app_assoc.
    split; [reflexivity|]. rewrite length_app. simpl.
    split; [lia|]. by apply Forall_app.
Qed.

(** X1: the log of notifications only grows, and by at most one entry
    per event handled: whatever the events, the log after them is the
    log before them followed by no more entries than there were events. *)
Theorem run_notifies_at_most_once_per_event events w :
  exists added,
    notifications (run events w) = notifications w ++ added /\
    length added <= length events.
Proof.
  destruct (run_notifications events w) as (added & Hlog & Hlen & _).
  eauto.
Qed.

(** X2: every button that a notification of the workspace offers has a
    [case] in [_handlePopupClick]: it is one of "Get Help",
    "Report Problem", "Reload Config" and "Create S4TK Project". *)
Theorem run_offers_only_handled_buttons events w :
  exists added,
    notifications (run events w) = notifications w ++ added /\
    Forall
      (fun n =>
         Forall
           (fun b =>
              b = _GET_HELP_BUTTON \/ b = _REPORT_PROBLEM_BUTTON \/
              b = _RELOAD_CONFIG_BUTTON \/ b = _CREATE_PROJECT_BUTTON)
           (actions n))
      added.
Proof.
  destruct (run_notifications events w) as (added & Hlog & _ & Hb).
  exists added. split; [assumption|].
  eapply Forall_impl; [exact Hb|]. intros n Hall. simpl in Hall.
  apply Forall_forall. intros b Hbn%list_elem_of_In.
  rewrite forallb_forall in Hall. specialize (Hall b Hbn).
  unfold handled_button in Hall.
  repeat (apply orb_true_iff in Hall as [Hall|Hall]);
    apply String.eqb_eq in Hall; auto.
Qed.

(** X3: the only link the workspace ever opens is the contact page:
    after any events, the links opened are those opened before followed
    by copies of that one link. *)
Theorem run_opens_only_the_contact_link events w :
  exists opened,
    openedLinks (run events w) = openedLinks w ++ opened /\
    Forall (eq CONTACT_LINK) opened.
Proof.
  revert w. induction events as [|ev events IH]; intros w.
  - exists []. simpl. rewrite app_nil_r. auto.
  - rewrite run_cons.
    destruct (step_effects_handle ev w) as (_ & (first & Hfirst & Hc) & _).
    destruct (IH (snd (handle ev w))) as (rest & Hrest & Hcs).
    exists (first ++ rest). rewrite Hrest, Hfirst, <- app_assoc.
    split; [reflexivity|]. by apply Forall_app.
Qed.

(** X4: of the host's context keys the workspace writes only
    [s4tk.workspace.active]: any other key has after any events the
    value it had before. *)
Theorem run_writes_only_the_active_key events w k :
  k <> ACTIVE_CONTEXT_KEY ->
  contextKeys (run events w) !! k = contextKeys w !! k.
Proof.
  intros Hk. revert w. induction events as [|ev events IH]; intros w.
  - reflexivity.
  - rewrite run_cons, IH.
    destruct (step_effects_handle ev w) as (_ & _ & Hkeys & _).
    by apply Hkeys.
Qed.

Lemma originates_inv config :
  originates config <->
  exists text parsed edits,
    parseConfig text = Returned parsed /\
    config = fold_left withDefaultPath edits parsed.
Proof.
  split.
  - induction 1 as [text config Hparse|config p _ (text & parsed & edits & Hparse & ->)].
    + exists text, config, []. auto.
    + exists text, parsed, (edits ++ [p]).
      split; [assumption|]. by rewrite fold_left_app.
  - intros (text & parsed & edits & Hparse & ->).
    induction edits as [|p edits IH] using rev_ind; simpl.
    + by eapply originates_parsed.
    + rewrite fold_left_app. simpl. by apply originates_edited.
Qed.

(** X5: the slot never holds a config that did not pass [parseConfig]:
    starting with an empty slot, whatever config the slot holds after
    any events is a value that [parseConfig] returned for some text,
    with the default paths that [setDefaultStbl] wrote into it since. *)
Theorem run_holds_only_parsed_configs events w config :
  _config w = None ->
  _config (run events w) = Some config ->
  exists text parsed edits,
    parseConfig text = Returned parsed /\
    config = fold_left withDefaultPath edits parsed.
Proof.
  intros Hempty Hheld. apply originates_inv.
  assert (Hstart : forall c, _config w = Some c -> originates c)
    by (intros c; rewrite Hempty; discriminate).
  clear Hempty. revert w Hstart Hheld.
  induction events as [|ev events IH]; intros w Hstart Hheld.
  - by apply Hstart.
  - rewrite run_cons in Hheld.
    apply (IH (snd (handle ev w))); [|exact Hheld].
    destruct (step_effects_handle ev w) as (_ & _ & _ & Hslot).
    by apply Hslot.
Qed.

(** *** No handler throws, and few of them write *)

Lemma createDefaultProject_returns w :
  fst (createDefaultProject w) = Returned tt.
Proof.
  destruct (rootUri w) as [root|] eqn:Hroot.
  - destruct (files w !! path (backingUri root)) as [content|] eqn:Hfile.
    + by rewrite (createDefaultProject_existing w root Hroot) by eauto.
    + by rewrite (createDefaultProject_fresh w root Hroot Hfile).
  - by rewrite (createDefaultProject_no_folder w Hroot).
Qed.

(** X6: no handler lets an exception out: every event, in every state,
    is handled to a normal return (the failures of [readFile] and
    [parseConfig] are caught, and the unchecked uses of the root folder
    and of the slot are never reached without one). *)
Theorem handle_never_throws ev w : fst (handle ev w) = Returned tt.
Proof.
  destruct ev; simpl.
  - change (fst (void (loadConfig None) w) = Returned tt).
    by rewrite void_loadConfig.
  - unfold onDidSaveTextDocument.
    destruct (endsWith fileName CONFIG_FILENAME); [|reflexivity].
    change (fst (void (loadConfig None) w) = Returned tt).
    by rewrite void_loadConfig.
  - unfold onDidDeleteFiles. by destruct (existsb _ deleted).
  - by rewrite void_loadConfig.
  - apply createDefaultProject_returns.
  - rewrite setDefaultStbl_run.
    destruct (_config w); [|reflexivity].
    cbv zeta. by destruct (rootUri w).
  - unfold _handlePopupClick. destruct button as [b|]; [|reflexivity].
    destruct (_ || _); [reflexivity|].
    destruct (String.eqb b _RELOAD_CONFIG_BUTTON).
    + change (fst (void (loadConfig (Some (mkLoadOptions (Some true)))) w)
              = Returned tt).
      by rewrite void_loadConfig.
    + destruct (String.eqb b _CREATE_PROJECT_BUTTON);
        [apply createDefaultProject_returns|reflexivity].
  - reflexivity.
  - reflexivity.
Qed.

Lemma handle_keeps_files ev w :
  may_write ev = false ->
  files (snd (handle ev w)) = files w /\
  directories (snd (handle ev w)) = directories w.
Proof.
  intros Hev. destruct ev; simpl in *; try discriminate.
  - change (snd (activate w)) with (snd (void (loadConfig None) w)).
    rewrite void_loadConfig. cbn [snd].
    destruct (loadConfig_frame None w) as (? & _ & ?). auto.
  - unfold onDidSaveTextDocument.
    destruct (endsWith fileName CONFIG_FILENAME); [|auto].
    change (files (snd (void (loadConfig None) w)) = files w /\
            directories (snd (void (loadConfig None) w)) = directories w).
    rewrite void_loadConfig. cbn [snd].
    destruct (loadConfig_frame None w) as (? & _ & ?). auto.
  - unfold onDidDeleteFiles. destruct (existsb _ deleted); auto.
  - rewrite void_loadConfig. cbn [snd].
    destruct (loadConfig_frame options w) as (? & _ & ?). auto.
  - unfold _handlePopupClick. destruct button as [b|]; [|auto].
    destruct (_ || _); [auto|].
    destruct (String.eqb b _RELOAD_CONFIG_BUTTON).
    + change (files (snd (void (loadConfig (Some (mkLoadOptions (Some true)))) w))
              = files w /\
              directories
                (snd (void (loadConfig (Some (mkLoadOptions (Some true)))) w))
              = directories w).
      rewrite void_loadConfig. cbn [snd].
      destruct (loadConfig_frame (Some (mkLoadOptions (Some true))) w)
        as (? & _ & ?). auto.
    + rewrite Hev. auto.
  - auto.
Qed.

(** X7: loading, the two listeners and the buttons other than
    "Create S4TK Project" never write: after any events other than
    [createDefaultProject], [setDefaultStbl], a click on that button and
    changes made from outside, the files and the folders on disk are
    what they were. *)
Theorem run_writes_only_on_request events w :
  (forall ev, In ev events -> may_write ev = false) ->
  files (run events w) = files w /\
  directories (run events w) = directories w.
Proof.
  revert w. induction events as [|ev events IH]; intros w Hevents.
  - auto.
  - rewrite run_cons.
    destruct (IH (snd (handle ev w))) as [-> ->];
      [intros ev' Hin; apply Hevents; by right|].
    apply handle_keeps_files, Hevents. by left.
Qed.

(** *** [_findConfig] and [loadConfig] *)

(** X8: [_findConfig] changes nothing and answers consistently: it
    gives a uri exactly when a folder is open, and says the file exists
    only together with a uri, exactly when the first folder holds the
    config file. *)
Theorem _findConfig_reports_consistently w :
  exists info,
    _findConfig w = (Returned info, w) /\
    (uri info = None <-> rootUri w = None) /\
    (exists_ info = true -> is_Some (uri info)) /\
    (exists_ info = true <->
     exists root,
       rootUri w = Some root /\
       uri info = Some (backingUri root) /\
       is_Some (files w !! path (backingUri root))).
Proof.
  rewrite _findConfig_run. eexists; split; [reflexivity|].
  destruct (rootUri w) as [root|]; simpl.
  - split; [split; discriminate|]. split; [eauto|].
    rewrite bool_decide_eq_true. split.
    + intros Hfile. exists root. auto.
    + by intros (root' & [= <-] & _ & Hfile).
  - split; [tauto|]. split; [discriminate|].
    split; [discriminate|]. by intros (root & [=] & _).
Qed.

(** X9: when there is no config file to load (no folder is open, or
    the first folder has no config file), [loadConfig] returns
    [undefined] and reports the absence only on request: it adds the
    warning that offers "Create S4TK Project" when called with
    [showNoConfigError: true], and no notification at all otherwise. *)
Theorem loadConfig_reports_absence_on_request options w :
  rootUri w = None \/
  (exists root,
      rootUri w = Some root /\ files w !! path (backingUri root) = None) ->
  exists w',
    loadConfig options w = (Returned None, w') /\
    _config w' = None /\
    notifications w'
    = notifications w
      ++ match options with
         | Some {| showNoConfigError := Some true |} => [noConfigFound]
         | _ => []
         end.
Proof.
  intros Habsent.
  assert (Hrun : loadConfig options w
                 = (Returned None,
                    if wants_NoConfigError options
                    then notified noConfigFound (cleared w) else cleared w)).
  { destruct Habsent as [Hroot|(root & Hroot & Hfile)].
    - apply (loadConfig_no_folder options w Hroot).
    - apply (loadConfig_no_file options w root Hroot Hfile). }
  rewrite Hrun. eexists; split; [reflexivity|].
  destruct options as [[[[|]|]]|]; simpl; rewrite ?app_nil_r; auto.
Qed.

(** X10: what [loadConfig] returns and leaves in the slot depends only
    on the folders and the files: from two states that agree on those,
    it returns the same value, leaves the same slot and the same
    [active], and adds the same notifications. *)
Theorem loadConfig_depends_only_on_folders_and_files options w1 w2 :
  workspaceFolders w1 = workspaceFolders w2 ->
  files w1 = files w2 ->
  fst (loadConfig options w1) = fst (loadConfig options w2) /\
  _config (snd (loadConfig options w1)) = _config (snd (loadConfig options w2)) /\
  contextActive (snd (loadConfig options w1))
  = contextActive (snd (loadConfig options w2)) /\
  exists added,
    notifications (snd (loadConfig options w1)) = notifications w1 ++ added /\
    notifications (snd (loadConfig options w2)) = notifications w2 ++ added.
Proof.
  intros Hfolders Hfiles.
  assert (Hroots : rootUri w2 = rootUri w1)
    by (unfold rootUri; by rewrite Hfolders).
  destruct (rootUri w1) as [root|] eqn:Hroot.
  - destruct (files w1 !! path (backingUri root)) as [content|] eqn:Hfile.
    + rewrite (loadConfig_file options w1 root content Hroot Hfile).
      rewrite (loadConfig_file options w2 root content Hroots)
        by (by rewrite <- Hfiles).
      destruct (parseConfig (toString content)) as [config|err];
        unfold contextActive; simpl; rewrite ?lookup_insert_eq;
        repeat (split; [reflexivity|]); eexists; split; reflexivity.
    + rewrite (loadConfig_no_file options w1 root Hroot Hfile).
      rewrite (loadConfig_no_file options w2 root Hroots)
        by (by rewrite <- Hfiles).
      destruct (wants_NoConfigError options);
        unfold contextActive; simpl; rewrite ?lookup_insert_eq;
        repeat (split; [reflexivity|]);
        [exists [noConfigFound]|exists []]; rewrite ?app_nil_r;
        split; reflexivity.
  - rewrite (loadConfig_no_folder options w1 Hroot).
    rewrite (loadConfig_no_folder options w2 Hroots).
    destruct (wants_NoConfigError options);
      unfold contextActive; simpl; rewrite ?lookup_insert_eq;
      repeat (split; [reflexivity|]);
      [exists [noConfigFound]|exists []]; rewrite ?app_nil_r;
      split; reflexivity.
Qed.

(** *** The listeners and [activate] *)

(** X11: the save listener goes by the end of the file name: a saved
    document whose name is anything followed by [CONFIG_FILENAME] makes
    the workspace reload the config (as [loadConfig()] does, without
    options), and the save of any other document changes nothing. *)
Theorem onDidSaveTextDocument_reloads_by_suffix fileName w :
  ((exists pre, fileName = pre +:+ CONFIG_FILENAME) ->
   onDidSaveTextDocument fileName w = (Returned tt, snd (loadConfig None w))) /\
  ((forall pre, fileName <> pre +:+ CONFIG_FILENAME) ->
   onDidSaveTextDocument fileName w = (Returned tt, w)).
Proof.
  unfold onDidSaveTextDocument. split.
  - intros Hname. rewrite (proj2 (endsWith_iff _ _) Hname).
    apply void_loadConfig.
  - intros Hname.
    destruct (endsWith fileName CONFIG_FILENAME) eqn:Hends; [|reflexivity].
    apply endsWith_iff in Hends as [pre ->]. by destruct (Hname pre).
Qed.

(** X12: [activate] is silent in a folder that is no S4TK project: with
    no folder open, or no config file in the first folder, it shows no
    notification and writes no file; the slot is empty and the context
    key false afterwards. *)
Theorem activate_is_silent_without_config w :
  rootUri w = None \/
  (exists root,
      rootUri w = Some root /\ files w !! path (backingUri root) = None) ->
  exists w',
    activate w = (Returned tt, w') /\
    notifications w' = notifications w /\
    files w' = files w /\
    _config w' = None /\
    contextActive w' = false.
Proof.
  intros Habsent.
  change (activate w) with (void (loadConfig None) w).
  rewrite void_loadConfig.
  assert (Hrun : loadConfig None w = (Returned None, cleared w)).
  { destruct Habsent as [Hroot|(root & Hroot & Hfile)].
    - apply (loadConfig_no_folder None w Hroot).
    - apply (loadConfig_no_file None w root Hroot Hfile). }
  rewrite Hrun. eexists; split; [reflexivity|].
  unfold contextActive; simpl. by rewrite lookup_insert_eq.
Qed.

(** X13: an unload by the delete listener is undone by a reload when
    the backing file is still there (a namesake was deleted, or the file
    was put back): after the listener has run, "Reload Config" leaves in
    the slot the config that the backing file parses to. *)
Theorem reload_restores_after_delete deleted w root content config :
  rootUri w = Some root ->
  files w !! path (backingUri root) = Some content ->
  parseConfig (toString content) = Returned config ->
  exists w',
    _handlePopupClick (Some _RELOAD_CONFIG_BUTTON)
      (snd (onDidDeleteFiles deleted w))
    = (Returned tt, w') /\
    _config w' = Some config /\
    contextActive w' = true.
Proof.
  intros Hroot Hfile Hparse.
  change (_handlePopupClick (Some _RELOAD_CONFIG_BUTTON)
            (snd (onDidDeleteFiles deleted w)))
    with (void (loadConfig (Some (mkLoadOptions (Some true))))
            (snd (onDidDeleteFiles deleted w))).
  rewrite void_loadConfig.
  assert (Hkept : rootUri (snd (onDidDeleteFiles deleted w)) = Some root /\
                  files (snd (onDidDeleteFiles deleted w))
                  !! path (backingUri root) = Some content).
  { unfold onDidDeleteFiles. destruct (existsb _ deleted); auto. }
  destruct Hkept as [Hroot' Hfile'].
  rewrite (loadConfig_file _ _ root content Hroot' Hfile'), Hparse.
  eexists; split; [reflexivity|].
  unfold contextActive; simpl. by rewrite lookup_insert_eq.
Qed.

(** *** What the scaffold holds *)

Lemma scaffolded_backing_file root w :
  files (scaffolded root w) !! path (backingUri root)
  = Some DEFAULT_CONFIG_CONTENT.
Proof.
  unfold scaffolded, backingUri; simpl. case_bool_decide as Hstbl.
  - apply lookup_insert_eq.
  - destruct (decide (path (joinPath (joinPath root "strings")
                              "default.stbl.json")
                      = path (joinPath root CONFIG_FILENAME))) as [Heq|Hne].
    + exfalso. apply Hstbl. rewrite Heq, lookup_insert_eq. eauto.
    + rewrite lookup_insert_ne by assumption. apply lookup_insert_eq.
Qed.

Lemma loadConfig_keeps_documents options w :
  shownDocuments (snd (loadConfig options w)) = shownDocuments w.
Proof.
  destruct (rootUri w) as [root|] eqn:Hroot.
  - destruct (files w !! path (backingUri root)) as [content|] eqn:Hfile.
    + rewrite (loadConfig_file options w root content Hroot Hfile).
      by destruct (parseConfig (toString content)).
    + rewrite (loadConfig_no_file options w root Hroot Hfile).
      by destruct (wants_NoConfigError options).
  - rewrite (loadConfig_no_folder options w Hroot).
    by destruct (wants_NoConfigError options).
Qed.

(** *** Clicks on the buttons *)

(** X14: "Get Help" and "Report Problem" open the contact page and do
    nothing else; a dismissed message, or a label without a [case],
    leaves the state as it is. *)
Theorem _handlePopupClick_contact_or_nothing button w :
  (button = Some _GET_HELP_BUTTON \/ button = Some _REPORT_PROBLEM_BUTTON ->
   exists w',
     _handlePopupClick button w = (Returned tt, w') /\
     openedLinks w' = openedLinks w ++ [CONTACT_LINK] /\
     _config w' = _config w /\
     contextKeys w' = contextKeys w /\
     files w' = files w /\
     directories w' = directories w /\
     notifications w' = notifications w /\
     shownDocuments w' = shownDocuments w /\
     workspaceFolders w' = workspaceFolders w) /\
  (button = None \/ (exists b, button = Some b /\ handled_button b = false) ->
   _handlePopupClick button w = (Returned tt, w)).
Proof.
  split.
  - intros [-> | ->]; (eexists; split; [reflexivity|]); simpl; tauto.
  - intros [-> | (b & -> & Hb)]; [reflexivity|].
    unfold handled_button in Hb.
    apply orb_false_iff in Hb as [Hb Hcreate].
    apply orb_false_iff in Hb as [Hb Hreload].
    unfold _handlePopupClick. by rewrite Hb, Hreload, Hcreate.
Qed.

(** X15: the two recovery buttons chain: in an open folder without a
    config file, "Reload Config" ends in the warning that offers
    "Create S4TK Project", and a click on that button then writes the
    default config file. *)
Theorem reload_then_create_scaffolds w root :
  rootUri w = Some root ->
  files w !! path (backingUri root) = None ->
  exists w1 w2,
    _handlePopupClick (Some _RELOAD_CONFIG_BUTTON) w = (Returned tt, w1) /\
    notifications w1 = notifications w ++ [noConfigFound] /\
    In _CREATE_PROJECT_BUTTON (actions noConfigFound) /\
    _handlePopupClick (Some _CREATE_PROJECT_BUTTON) w1 = (Returned tt, w2) /\
    files w2 !! path (backingUri root) = Some DEFAULT_CONFIG_CONTENT.
Proof.
  intros Hroot Hfile.
  exists (notified noConfigFound (cleared w)),
    (snd (createDefaultProject (notified noConfigFound (cleared w)))).
  split.
  { change (_handlePopupClick (Some _RELOAD_CONFIG_BUTTON) w)
      with (void (loadConfig (Some (mkLoadOptions (Some true)))) w).
    rewrite void_loadConfig.
    by rewrite (loadConfig_no_file _ w root Hroot Hfile). }
  split; [reflexivity|]. split; [by left|].
  change (_handlePopupClick (Some _CREATE_PROJECT_BUTTON)
            (notified noConfigFound (cleared w)))
    with (createDefaultProject (notified noConfigFound (cleared w))).
  split.
  { rewrite (surjective_pairing (createDefaultProject _)) at 1.
    by rewrite createDefaultProject_returns. }
  rewrite (createDefaultProject_fresh _ root) by assumption. cbn [snd].
  destruct (loadConfig_frame None
              (scaffolded root (notified noConfigFound (cleared w))))
    as (-> & _).
  apply scaffolded_backing_file.
Qed.

(** *** [createDefaultProject] *)

(** X16: without an open folder [createDefaultProject] creates nothing:
    it adds one error that offers "Report Problem", and the files, the
    folders on disk, the slot and the context keys are what they were. *)
Theorem createDefaultProject_needs_a_folder w :
  rootUri w = None ->
  exists w',
    createDefaultProject w = (Returned tt, w') /\
    notifications w'
    = notifications w
      ++ [mkNotification Error
            "Failed to create config file. Please report this problem."
            [_REPORT_PROBLEM_BUTTON]] /\
    files w' = files w /\
    directories w' = directories w /\
    shownDocuments w' = shownDocuments w /\
    _config w' = _config w /\
    contextKeys w' = contextKeys w.
Proof.
  intros Hroot. rewrite (createDefaultProject_no_folder w Hroot).
  eexists; split; [reflexivity|]. simpl. tauto.
Qed.

(** X17: in an open folder without a config file,
    [createDefaultProject] leaves the config file holding
    [DEFAULT_CONFIG_CONTENT], the folders [out], [src] and [strings]
    registered next to those that were there, and the config file as the
    one more document shown. *)
Theorem createDefaultProject_scaffolds w root :
  rootUri w = Some root ->
  files w !! path (backingUri root) = None ->
  exists w',
    createDefaultProject w = (Returned tt, w') /\
    files w' !! path (backingUri root) = Some DEFAULT_CONFIG_CONTENT /\
    path (joinPath root "out") ∈ directories w' /\
    path (joinPath root "src") ∈ directories w' /\
    path (joinPath root "strings") ∈ directories w' /\
    directories w ⊆ directories w' /\
    shownDocuments w' = shownDocuments w ++ [backingUri root] /\
    workspaceFolders w' = workspaceFolders w.
Proof.
  intros Hroot Hfile. rewrite (createDefaultProject_fresh w root Hroot Hfile).
  eexists; split; [reflexivity|]. cbn [snd].
  destruct (loadConfig_frame None (scaffolded root w)) as (-> & -> & ->).
  rewrite loadConfig_keeps_documents.
  split; [apply scaffolded_backing_file|].
  unfold scaffolded; simpl.
  repeat (split; [set_solver|]). split; reflexivity.
Qed.

(** X18: [createDefaultProject] never overwrites a string table: the
    file [strings/default.stbl.json] keeps its content when it exists
    and gets the generated content when it does not, and every file
    other than it and the config file is left as it was. *)
Theorem createDefaultProject_keeps_existing_files w root :
  rootUri w = Some root ->
  files w !! path (backingUri root) = None ->
  path (defaultStblUri root) <> path (backingUri root) ->
  (forall old,
      files w !! path (defaultStblUri root) = Some old ->
      files (snd (createDefaultProject w)) !! path (defaultStblUri root)
      = Some old) /\
  (files w !! path (defaultStblUri root) = None ->
   files (snd (createDefaultProject w)) !! path (defaultStblUri root)
   = Some generateRandomContent) /\
  (forall p,
      p <> path (backingUri root) -> p <> path (defaultStblUri root) ->
      files (snd (createDefaultProject w)) !! p = files w !! p).
Proof.
  intros Hroot Hfile Hne.
  rewrite (createDefaultProject_fresh w root Hroot Hfile). cbn [snd].
  destruct (loadConfig_frame None (scaffolded root w)) as (-> & _).
  unfold scaffolded, defaultStblUri, backingUri in *; simpl.
  split; [|split].
  - intros old Hold. rewrite bool_decide_eq_true_2.
    + by rewrite lookup_insert_ne.
    + rewrite lookup_insert_ne by auto. eauto.
  - intros Hnone. rewrite bool_decide_eq_false_2.
    + apply lookup_insert_eq.
    + rewrite lookup_insert_ne by auto. rewrite Hnone. by intros [? ?].
  - intros p Hp1 Hp2. case_bool_decide.
    + by rewrite lookup_insert_ne.
    + by rewrite !lookup_insert_ne.
Qed.

(** X19: a project created by [createDefaultProject] comes up loaded
    exactly when the default config is valid: the [loadConfig] it ends
    with reads [DEFAULT_CONFIG_CONTENT] back, so the slot holds the
    config it parses to and the only notification reports success, or,
    if [parseConfig] throws on it, the slot is empty and the only
    notification is the error showing what was thrown. *)
Theorem createDefaultProject_loads_the_default w root :
  rootUri w = Some root ->
  files w !! path (backingUri root) = None ->
  match parseConfig (toString DEFAULT_CONFIG_CONTENT) with
  | Returned config =>
      _config (snd (createDefaultProject w)) = Some config /\
      contextActive (snd (createDefaultProject w)) = true /\
      notifications (snd (createDefaultProject w))
      = notifications w ++ [successfullyLoaded]
  | Thrown err =>
      _config (snd (createDefaultProject w)) = None /\
      contextActive (snd (createDefaultProject w)) = false /\
      notifications (snd (createDefaultProject w))
      = notifications w ++ [couldNotLoad err]
  end.
Proof.
  intros Hroot Hfile.
  rewrite (createDefaultProject_fresh w root Hroot Hfile). cbn [snd].
  rewrite (loadConfig_file None (scaffolded root w) root
             DEFAULT_CONFIG_CONTENT Hroot (scaffolded_backing_file root w)).
  destruct (parseConfig (toString DEFAULT_CONFIG_CONTENT));
    unfold contextActive; simpl; by rewrite lookup_insert_eq.
Qed.

(** *** [setDefaultStbl] *)

Lemma withDefaultPath_twice config p q :
  withDefaultPath (withDefaultPath config p) q = withDefaultPath config q.
Proof. unfold withDefaultPath. by destruct (stringTables config). Qed.

(** X20: a default string table set by [setDefaultStbl] survives a
    reload: with a config loaded, the backing file located and the
    config module reading its own output back, [loadConfig] after
    [setDefaultStbl stblUri] returns the config that was in the slot,
    whose default path is [stblUri.fsPath]. *)
Theorem setDefaultStbl_survives_reload stblUri options w config root :
  _config w = Some config ->
  rootUri w = Some root ->
  parses_back (withDefaultPath config (fsPath stblUri)) ->
  exists reloaded w',
    loadConfig options (snd (setDefaultStbl stblUri w))
    = (Returned (Some reloaded), w') /\
    _config (snd (setDefaultStbl stblUri w)) = Some reloaded /\
    _config w' = Some reloaded /\
    configDefaultPath reloaded = Some (fsPath stblUri).
Proof.
  intros Hconfig Hroot Hback.
  exists (withDefaultPath config (fsPath stblUri)).
  rewrite setDefaultStbl_run, Hconfig, Hroot. cbv zeta. cbn [snd].
  erewrite loadConfig_file;
    [|exact Hroot|unfold writeFile; simpl; apply lookup_insert_eq].
  rewrite toString_Buffer_from, Hback.
  eexists; split; [reflexivity|].
  split; [reflexivity|]. split; [reflexivity|].
  apply withDefaultPath_defaultPath.
Qed.

(** X21: of two calls of [setDefaultStbl] the last wins, and the first
    leaves no trace: with a config loaded and the backing file located,
    the state after both calls is the state after the second alone. *)
Theorem setDefaultStbl_last_call_wins first second w config root :
  _config w = Some config ->
  rootUri w = Some root ->
  snd (setDefaultStbl second (snd (setDefaultStbl first w)))
  = snd (setDefaultStbl second w).
Proof.
  intros Hconfig Hroot.
  rewrite (setDefaultStbl_run second w), Hconfig, Hroot.
  rewrite (setDefaultStbl_run first w), Hconfig, Hroot. cbv zeta. cbn [snd].
  rewrite setDefaultStbl_run. unfold rootUri in *. simpl. rewrite Hroot.
  simpl. by rewrite withDefaultPath_twice, insert_insert_eq.
Qed.

End Behaviour.

(** ** These statements at concrete inputs *)

Lemma run_writes_only_the_active_key_witness :
  contextKeys
    (run (collaborators := Fixture.host)
       [Activate; Deleted [Fixture.backupCopy]]
       (Fixture.project "{}"))
  !! "editorFocus"
  = contextKeys (Fixture.project "{}") !! "editorFocus".
Proof.
  apply (run_writes_only_the_active_key (collaborators := Fixture.host)).
  vm_compute. discriminate.
Defined.

Lemma run_holds_only_parsed_configs_witness :
  exists text parsed edits,
    Fixture.parse text = Returned parsed /\
    withDefaultPath Fixture.oldConfig "/new"
    = fold_left withDefaultPath edits parsed.
Proof.
  apply (run_holds_only_parsed_configs (collaborators := Fixture.host)
           [Activate; SetDefaultStbl Fixture.newStbl]
           (Fixture.project (Fixture.stringify Fixture.oldConfig))).
  - reflexivity.
  - vm_compute. reflexivity.
Defined.

Lemma run_writes_only_on_request_witness :
  files
    (run (collaborators := Fixture.host)
       [Activate; Saved Fixture.configPath; Deleted [Fixture.backupCopy];
        PopupClick (Some _RELOAD_CONFIG_BUTTON)]
       (Fixture.project "{}"))
  = files (Fixture.project "{}") /\
  directories
    (run (collaborators := Fixture.host)
       [Activate; Saved Fixture.configPath; Deleted [Fixture.backupCopy];
        PopupClick (Some _RELOAD_CONFIG_BUTTON)]
       (Fixture.project "{}"))
  = directories (Fixture.project "{}").
Proof.
  apply (run_writes_only_on_request (collaborators := Fixture.host)).
  intros ev [<-|[<-|[<-|[<-|[]]]]]; reflexivity.
Defined.

Lemma loadConfig_reports_absence_on_request_witness :
  exists w',
    loadConfig (collaborators := Fixture.host)
      (Some (mkLoadOptions (Some true))) Fixture.emptyFolder
    = (Returned None, w') /\
    _config w' = None /\
    notifications w' = [noConfigFound].
Proof.
  apply (loadConfig_reports_absence_on_request
           (collaborators := Fixture.host)
           (Some (mkLoadOptions (Some true))) Fixture.emptyFolder).
  right. exists Fixture.root. split; reflexivity.
Defined.

Lemma loadConfig_depends_only_on_folders_and_files_witness :
  fst (loadConfig (collaborators := Fixture.host) None
         (Fixture.project (Fixture.stringify Fixture.oldConfig)))
  = fst (loadConfig (collaborators := Fixture.host) None
           Fixture.loadedProject).
Proof.
  apply (loadConfig_depends_only_on_folders_and_files
           (collaborators := Fixture.host) None
           (Fixture.project (Fixture.stringify Fixture.oldConfig))
           Fixture.loadedProject);
    reflexivity.
Defined.

Lemma onDidSaveTextDocument_reloads_by_suffix_witness :
  onDidSaveTextDocument (collaborators := Fixture.host) Fixture.configPath
    (Fixture.project "{}")
  = (Returned tt,
     snd (loadConfig (collaborators := Fixture.host) None
            (Fixture.project "{}"))).
Proof.
  apply (proj1 (onDidSaveTextDocument_reloads_by_suffix
                  (collaborators := Fixture.host) Fixture.configPath
                  (Fixture.project "{}"))).
  exists "/proj/". reflexivity.
Defined.

Lemma activate_is_silent_without_config_witness :
  exists w',
    activate (collaborators := Fixture.host) Fixture.noFolder
    = (Returned tt, w') /\
    notifications w' = [] /\
    files w' = ∅ /\
    _config w' = None /\
    contextActive w' = false.
Proof.
  apply (activate_is_silent_without_config (collaborators := Fixture.host)
           Fixture.noFolder).
  left. reflexivity.
Defined.

Lemma reload_restores_after_delete_witness :
  exists w',
    _handlePopupClick (collaborators := Fixture.host)
      (Some _RELOAD_CONFIG_BUTTON)
      (snd (onDidDeleteFiles [Fixture.backupCopy] Fixture.loadedProject))
    = (Returned tt, w') /\
    _config w' = Some Fixture.oldConfig /\
    contextActive w' = true.
Proof.
  apply (reload_restores_after_delete (collaborators := Fixture.host)
           [Fixture.backupCopy] Fixture.loadedProject Fixture.root
           (Buffer_from (Fixture.stringify Fixture.oldConfig))
           Fixture.oldConfig);
    vm_compute; reflexivity.
Defined.

Lemma _handlePopupClick_contact_or_nothing_witness :
  _handlePopupClick (collaborators := Fixture.host) (Some "Dismiss")
    Fixture.loadedProject
  = (Returned tt, Fixture.loadedProject).
Proof.
  apply (proj2 (_handlePopupClick_contact_or_nothing
                  (collaborators := Fixture.host) (Some "Dismiss")
                  Fixture.loadedProject)).
  right. exists "Dismiss". split; reflexivity.
Defined.

Lemma reload_then_create_scaffolds_witness :
  exists w1 w2,
    _handlePopupClick (collaborators := Fixture.host)
      (Some _RELOAD_CONFIG_BUTTON) Fixture.emptyFolder
    = (Returned tt, w1) /\
    notifications w1 = [noConfigFound] /\
    In _CREATE_PROJECT_BUTTON (actions noConfigFound) /\
    _handlePopupClick (collaborators := Fixture.host)
      (Some _CREATE_PROJECT_BUTTON) w1
    = (Returned tt, w2) /\
    files w2 !! Fixture.configPath = Some (Buffer_from "{}").
Proof.
  apply (reload_then_create_scaffolds (collaborators := Fixture.host)
           Fixture.emptyFolder Fixture.root);
    reflexivity.
Defined.

Lemma createDefaultProject_needs_a_folder_witness :
  exists w',
    createDefaultProject (collaborators := Fixture.host) Fixture.noFolder
    = (Returned tt, w') /\
    notifications w'
    = [mkNotification Error
         "Failed to create config file. Please report this problem."
         [_REPORT_PROBLEM_BUTTON]] /\
    files w' = ∅ /\
    directories w' = ∅ /\
    shownDocuments w' = [] /\
    _config w' = None /\
    contextKeys w' = ∅.
Proof.
  apply (createDefaultProject_needs_a_folder (collaborators := Fixture.host)
           Fixture.noFolder).
  reflexivity.
Defined.

Lemma createDefaultProject_scaffolds_witness :
  exists w',
    createDefaultProject (collaborators := Fixture.host) Fixture.emptyFolder
    = (Returned tt, w') /\
    files w' !! Fixture.configPath = Some (Buffer_from "{}") /\
    "/proj/out" ∈ directories w' /\
    "/proj/src" ∈ directories w' /\
    "/proj/strings" ∈ directories w' /\
    ∅ ⊆ directories w' /\
    shownDocuments w' = [Fixture.join Fixture.root CONFIG_FILENAME] /\
    workspaceFolders w' = [Fixture.root].
Proof.
  apply (createDefaultProject_scaffolds (collaborators := Fixture.host)
           Fixture.emptyFolder Fixture.root);
    reflexivity.
Defined.

Lemma createDefaultProject_keeps_existing_files_witness :
  files (snd (createDefaultProject (collaborators := Fixture.host)
                Fixture.emptyFolder))
  !! "/proj/strings/default.stbl.json"
  = Some (Buffer_from "[]").
Proof.
  apply (proj1 (proj2 (createDefaultProject_keeps_existing_files
                         (collaborators := Fixture.host)
                         Fixture.emptyFolder Fixture.root
                         eq_refl eq_refl
                         ltac:(vm_compute; discriminate)))).
  reflexivity.
Defined.

Lemma createDefaultProject_loads_the_default_witness :
  _config (snd (createDefaultProject (collaborators := Fixture.host)
                  Fixture.emptyFolder))
  = Some (mkS4TKConfig None ∅) /\
  contextActive (snd (createDefaultProject (collaborators := Fixture.host)
                        Fixture.emptyFolder))
  = true /\
  notifications (snd (createDefaultProject (collaborators := Fixture.host)
                        Fixture.emptyFolder))
  = [] ++ [successfullyLoaded].
Proof.
  exact (createDefaultProject_loads_the_default
           (collaborators := Fixture.host) Fixture.emptyFolder Fixture.root
           eq_refl eq_refl).
Defined.

Lemma setDefaultStbl_survives_reload_witness :
  exists reloaded w',
    loadConfig (collaborators := Fixture.host) None
      (snd (setDefaultStbl (collaborators := Fixture.host) Fixture.newStbl
              Fixture.loadedProject))
    = (Returned (Some reloaded), w') /\
    _config (snd (setDefaultStbl (collaborators := Fixture.host)
                    Fixture.newStbl Fixture.loadedProject))
    = Some reloaded /\
    _config w' = Some reloaded /\
    configDefaultPath reloaded = Some "/new".
Proof.
  apply (setDefaultStbl_survives_reload (collaborators := Fixture.host)
           Fixture.newStbl None Fixture.loadedProject Fixture.oldConfig
           Fixture.root);
    vm_compute; reflexivity.
Defined.

Lemma setDefaultStbl_last_call_wins_witness :
  snd (setDefaultStbl (collaborators := Fixture.host) Fixture.newStbl
         (snd (setDefaultStbl (collaborators := Fixture.host)
                 (mkUri "/first" "/first") Fixture.loadedProject)))
  = snd (setDefaultStbl (collaborators := Fixture.host) Fixture.newStbl
           Fixture.loadedProject).
Proof.
  apply (setDefaultStbl_last_call_wins (collaborators := Fixture.host)
           (mkUri "/first" "/first") Fixture.newStbl Fixture.loadedProject
           Fixture.oldConfig Fixture.root);
    reflexivity.
Defined.
